(** * Babylon.js node editor and input hub: a shallow embedding

    The development follows two groups of source files:

    - [nodeEditor/src/graphEditor.tsx]: the [GraphEditor] component that keeps
      a diagram of nodes, ports and links in step with a node material
      (module [GraphEditor]);
    - the [InputHub] class in its three revisions ([src/Inputs/inputHub.ts]
      and the two later files), which turns keyboard and pointer events into
      named events (module [InputHub]).

    Objects that the TypeScript code shares by reference (connection points,
    ports, nodes, links) live in stores indexed by an identifier; a field that
    holds an object holds its identifier. *)

From stdpp Require Import base decidable option list strings pretty gmap fin_maps.
From Stdlib Require Import ZArith Lia.

Local Open Scope string_scope.
Local Open Scope list_scope.
Local Open Scope Z_scope.

(** ** JavaScript values *)

(** The values that travel through [connection.value], [defaultValue] and the
    [catch] clause.  Numbers are the integers among the doubles (the only
    numeric constants the code writes are 0 and 1). *)
Inductive JsValue : Type :=
  | JsUndefined
  | JsNull
  | JsBool (b : bool)
  | JsNumber (z : Z)
  | JsString (s : string)
  | Vector2 (x y : Z)
  | Vector3 (x y z : Z)
  | Vector4 (x y z w : Z)
  | Matrix (m : list Z)
  | Color3 (r g b : Z)
  | Color4 (r g b a : Z).

#[global] Instance JsValue_eq_dec : EqDecision JsValue.
Proof. solve_decision. Defined.

(** The test [if (v)]: [undefined], [null], [false], [0] and the empty string
    are falsy; every object is truthy. *)
Definition ToBoolean (v : JsValue) : bool :=
  match v with
  | JsUndefined | JsNull => false
  | JsBool b => b
  | JsNumber z => negb (z =? 0)
  | JsString s => negb (String.eqb s "")
  | _ => true
  end.

(** The values that are objects: the vectors, matrices and colours that the
    editor uses as literals. *)
Definition isObject (v : JsValue) : bool :=
  match v with
  | Vector2 _ _ | Vector3 _ _ _ | Vector4 _ _ _ _ | Matrix _
  | Color3 _ _ _ | Color4 _ _ _ _ => true
  | _ => false
  end.

(** An optional boolean property ([released?: boolean]) used as a condition. *)
Definition truthy (o : option bool) : bool := default false o.

(** [Array.prototype.indexOf] with strict equality; [-1] when absent. *)
Fixpoint indexOf_from {A} `{EqDecision A} (i : Z) (l : list A) (x : A) : Z :=
  match l with
  | [] => -1
  | y :: l' => if decide (y = x) then i else indexOf_from (i + 1) l' x
  end.

Definition indexOf {A} `{EqDecision A} (l : list A) (x : A) : Z :=
  indexOf_from 0 l x.

(** ** The input hub *)

Module InputHub.

(** Hardware events.  [type] is one of the constants of [KeyboardEventTypes]
    or [PointerEventTypes]; their numeric values are declared outside these
    files and stay parameters below. *)
Record KeyboardEvent := {
  keyCode : Z;
  location : Z;
  altKey : bool;
  shiftKey : bool;
  ctrlKey : bool
}.

Record KeyboardInfo := { kb_type : Z; kb_event : KeyboardEvent }.

Record PointerEvent := { button : Z }.

Record PointerInfo := { ptr_type : Z; ptr_event : PointerEvent }.

(** [IInputHubEventTrigger] with the optional flags, then the keyboard and the
    mouse triggers that extend it. *)
Record IInputHubEventTrigger := {
  altModifier : option bool;
  shiftModifier : option bool;
  ctrlModifier : option bool;
  released : option bool;
  rightModifier : option bool
}.

Record IInputHubKeyboardEventTrigger := {
  kt_base : IInputHubEventTrigger;
  kt_keyCode : Z
}.

Record IInputHubMouseEventTrigger := {
  mt_base : IInputHubEventTrigger;
  mt_button : Z
}.

Record KeyboardHubEvent := {
  ke_name : string;
  ke_trigger : IInputHubKeyboardEventTrigger
}.

Record MouseHubEvent := {
  me_name : string;
  me_trigger : IInputHubMouseEventTrigger
}.

Record Hub := {
  _keyboardHubEvents : list KeyboardHubEvent;
  _mouseHubEvents : list MouseHubEvent;
  _modifierStates : gmap string bool
}.

(** [this._modifierStates[key]] used as a condition: a missing key is
    [undefined]. *)
Definition modifierState (h : Hub) (key : string) : bool :=
  default false (_modifierStates h !! key).

Definition setModifier (key : string) (b : bool) (h : Hub) : Hub :=
  {| _keyboardHubEvents := _keyboardHubEvents h;
     _mouseHubEvents := _mouseHubEvents h;
     _modifierStates := <[key := b]> (_modifierStates h) |}.

(** The body shared by the three observers: walk the registered events in
    order; an event that passes [fires] is skipped when its name is already in
    [raisedEvents], otherwise the name is pushed and notified.  The result is
    the final [raisedEvents] paired with the names handed to
    [onEventObservable.notifyObservers], oldest first. *)
Fixpoint raise {E} (name : E -> string) (fires : E -> bool) (events : list E)
    (raisedEvents notified : list string) : list string * list string :=
  match events with
  | [] => (raisedEvents, notified)
  | e :: events' =>
      if fires e then
        if negb (indexOf raisedEvents (name e) =? -1) then
          raise name fires events' raisedEvents notified
        else
          raise name fires events' (raisedEvents ++ [name e]) (notified ++ [name e])
      else raise name fires events' raisedEvents notified
  end.

Section Observers.

Variables KEYDOWN KEYUP POINTERDOWN POINTERUP : Z.

(** [!trigger.released && type == DOWN || trigger.released && type == UP] *)
Definition phase (t : IInputHubEventTrigger) (type DOWN UP : Z) : bool :=
  (negb (truthy (released t)) && (type =? DOWN))
  || (truthy (released t) && (type =? UP)).

(** *** Revision with the pointer observer and [_modifierStates] *)

Definition _checkKeyModifier (h : Hub) (prefix : string)
    (t : IInputHubEventTrigger) : bool :=
  if negb (modifierState h prefix) then false
  else
    match rightModifier t with
    | Some r =>
        if r && negb (modifierState h (prefix +:+ "Right")) then false
        else if negb r && negb (modifierState h (prefix +:+ "Left")) then false
        else true
    | None => true
    end.

Definition _checkModifier (h : Hub) (t : IInputHubEventTrigger) : bool :=
  if truthy (altModifier t) && negb (_checkKeyModifier h "alt" t) then false
  else if truthy (shiftModifier t) && negb (_checkKeyModifier h "shift" t) then false
  else if truthy (ctrlModifier t) && negb (_checkKeyModifier h "ctrl" t) then false
  else true.

Definition mouseFires (h : Hub) (evt : PointerInfo) (e : MouseHubEvent) : bool :=
  let trigger := me_trigger e in
  (mt_button trigger =? button (ptr_event evt))
  && phase (mt_base trigger) (ptr_type evt) POINTERDOWN POINTERUP
  && _checkModifier h (mt_base trigger).

(** The pointer observer; returns the names notified. *)
Definition onPointer (h : Hub) (evt : PointerInfo) : list string :=
  snd (raise me_name (mouseFires h evt) (_mouseHubEvents h) [] []).

Definition keyboardFires (h : Hub) (evt : KeyboardInfo) (e : KeyboardHubEvent) : bool :=
  let trigger := ke_trigger e in
  (kt_keyCode trigger =? keyCode (kb_event evt))
  && phase (kt_base trigger) (kb_type evt) KEYDOWN KEYUP
  && _checkModifier h (kt_base trigger).

(** A modifier key updates the general flag and the left or right one. *)
Definition trackModifier (prefix : string) (evt : KeyboardInfo) (h : Hub) : Hub :=
  let down := kb_type evt =? KEYDOWN in
  let h1 := setModifier prefix down h in
  if location (kb_event evt) =? 2
  then setModifier (prefix +:+ "Right") down h1
  else setModifier (prefix +:+ "Left") down h1.

(** The keyboard observer: new hub state and the names notified. *)
Definition onKeyboard (h : Hub) (evt : KeyboardInfo) : Hub * list string :=
  let kbEvent := kb_event evt in
  if keyCode kbEvent =? 16 then (trackModifier "shift" evt h, [])
  else if keyCode kbEvent =? 17 then (trackModifier "ctrl" evt h, [])
  else if keyCode kbEvent =? 18 then (trackModifier "alt" evt h, [])
  else (h, snd (raise ke_name (keyboardFires h evt) (_keyboardHubEvents h) [] [])).

(** *** Keyboard-only revision: modifiers read from the event *)

Definition eventModifierKey (prefix : string) (k : KeyboardEvent) : bool :=
  if String.eqb prefix "alt" then altKey k
  else if String.eqb prefix "shift" then shiftKey k
  else if String.eqb prefix "ctrl" then ctrlKey k
  else false.

Definition _checkKeyModifier' (h : Hub) (prefix : string)
    (t : IInputHubEventTrigger) (keyEvent : KeyboardEvent) : bool :=
  if negb (eventModifierKey prefix keyEvent) then false
  else
    match rightModifier t with
    | Some r =>
        if r && negb (modifierState h (prefix +:+ "Right")) then false
        else if negb r && negb (modifierState h (prefix +:+ "Left")) then false
        else true
    | None => true
    end.

Definition keyboardFires' (h : Hub) (evt : KeyboardInfo) (e : KeyboardHubEvent) : bool :=
  let trigger := ke_trigger e in
  let t := kt_base trigger in
  let kbEvent := kb_event evt in
  (kt_keyCode trigger =? keyCode kbEvent)
  && phase t (kb_type evt) KEYDOWN KEYUP
  && (if truthy (altModifier t) && negb (_checkKeyModifier' h "alt" t kbEvent) then false
      else if truthy (shiftModifier t) && negb (_checkKeyModifier' h "shift" t kbEvent) then false
      else if truthy (ctrlModifier t) && negb (_checkKeyModifier' h "ctrl" t kbEvent) then false
      else true).

Definition trackModifier' (prefix : string) (evt : KeyboardInfo) (h : Hub) : Hub :=
  let down := kb_type evt =? KEYDOWN in
  if location (kb_event evt) =? 2
  then setModifier (prefix +:+ "Right") down h
  else setModifier (prefix +:+ "Left") down h.

Definition onKeyboard' (h : Hub) (evt : KeyboardInfo) : Hub * list string :=
  let kbEvent := kb_event evt in
  if keyCode kbEvent =? 16 then (trackModifier' "shift" evt h, [])
  else if keyCode kbEvent =? 17 then (trackModifier' "ctrl" evt h, [])
  else if keyCode kbEvent =? 18 then (trackModifier' "alt" evt h, [])
  else (h, snd (raise ke_name (keyboardFires' h evt) (_keyboardHubEvents h) [] [])).

(** *** First revision ([src/Inputs/inputHub.ts]): no [raisedEvents] *)

Definition keyboardFires0 (evt : KeyboardInfo) (e : KeyboardHubEvent) : bool :=
  let t := kt_base (ke_trigger e) in
  (kt_keyCode (ke_trigger e) =? keyCode (kb_event evt))
  && phase t (kb_type evt) KEYDOWN KEYUP
  && ((negb (truthy (altModifier t)) || altKey (kb_event evt))
      && (negb (truthy (shiftModifier t)) || shiftKey (kb_event evt))
      && (negb (truthy (ctrlModifier t)) || ctrlKey (kb_event evt))).

Definition onKeyboard0 (h : Hub) (evt : KeyboardInfo) : list string :=
  ke_name <$> filter (fun e => Is_true (keyboardFires0 evt e)) (_keyboardHubEvents h).

End Observers.

End InputHub.

(** ** The graph editor *)

Module GraphEditor.

(** *** The node material, as the editor sees it *)

(** The classes the editor tells apart with [instanceof]. *)
Inductive BlockClass := TextureBlock | LightBlock | OtherBlock.

(** The root list of the material that holds a block once it is an output. *)
Inductive NodeMaterialBlockTargets := Vertex | Fragment.

Record NodeMaterialBlock := {
  block_id : nat;
  block_class : BlockClass;
  isFinalMerger : bool;
  target : NodeMaterialBlockTargets
}.

#[global] Instance BlockClass_eq_dec : EqDecision BlockClass.
Proof. solve_decision. Defined.
#[global] Instance NodeMaterialBlockTargets_eq_dec : EqDecision NodeMaterialBlockTargets.
Proof. solve_decision. Defined.
#[global] Instance NodeMaterialBlock_eq_dec : EqDecision NodeMaterialBlock.
Proof. solve_decision. Defined.

(** The two fields of a connection point that the editor reads and writes. *)
Record NodeMaterialConnectionPoint := {
  cp_name : string;
  value : JsValue
}.

Record NodeMaterial := {
  _vertexOutputNodes : list NodeMaterialBlock;
  _fragmentOutputNodes : list NodeMaterialBlock
}.

Definition outputNodes (m : NodeMaterial) : list NodeMaterialBlock :=
  _vertexOutputNodes m ++ _fragmentOutputNodes m.


(** Modelled from the spec: [NodeMaterial.addOutputNode] is not part of these
    files.  Section 4.5 gives the contract: registering is idempotent, a block
    that is already registered is left alone.  A new block joins the root list
    of its target. *)
Definition addOutputNode (b : NodeMaterialBlock) (m : NodeMaterial) : NodeMaterial :=
  if decide (b ∈ outputNodes m) then m
  else
    match target b with
    | Vertex =>
        {| _vertexOutputNodes := _vertexOutputNodes m ++ [b];
           _fragmentOutputNodes := _fragmentOutputNodes m |}
    | Fragment =>
        {| _vertexOutputNodes := _vertexOutputNodes m;
           _fragmentOutputNodes := _fragmentOutputNodes m ++ [b] |}
    end.

(** Modelled from the spec: [NodeMaterial.removeOutputNode] is not part of
    these files.  Section 4.5: unregistering removes the block, and is a no-op
    for a block that is absent. *)
Definition removeOutputNode (b : NodeMaterialBlock) (m : NodeMaterial) : NodeMaterial :=
  {| _vertexOutputNodes := filter (fun x => x ≠ b) (_vertexOutputNodes m);
     _fragmentOutputNodes := filter (fun x => x ≠ b) (_fragmentOutputNodes m) |}.

(** The methods the editor invokes on the node material and its connection
    points, in call order. *)
Inductive Call :=
  | CallBuild (verbose : bool)
  | CallConnectTo (output input : nat)
  | CallDisconnectFrom (output input : nat)
  | CallAddOutputNode (b : NodeMaterialBlock)
  | CallRemoveOutputNode (b : NodeMaterialBlock).

(** Modelled from the spec: the constructors of [babylonjs/Maths/math] are not
    part of these files; section 6 names them the zero, identity and white
    defaults of their types. *)
Definition Vector2_Zero : JsValue := Vector2 0 0.
Definition Vector3_Zero : JsValue := Vector3 0 0 0.
Definition Vector4_Zero : JsValue := Vector4 0 0 0 0.
Definition Matrix_Identity : JsValue :=
  Matrix [1; 0; 0; 0;  0; 1; 0; 0;  0; 0; 1; 0;  0; 0; 0; 1].
Definition Color3_White : JsValue := Color3 1 1 1.

(** *** The diagram *)

Inductive NodeModelClass :=
  GenericNodeModel | TextureNodeModel | LightNodeModel | InputNodeModel.

Record DefaultNodeModel := {
  node_class : NodeModelClass;
  node_x : Z;
  node_y : Z;
  block : option NodeMaterialBlock;
  node_connection : option nat;
  node_ports : list nat
}.

Record DefaultPortModel := {
  port_name : string;
  position : string;
  port_connection : option nat;
  defaultValue : JsValue;
  port_node : nat
}.

Record LinkModel := {
  sourcePort : option nat;
  targetPort : option nat
}.

Record DiagramModel := {
  dm_nodes : list nat;
  dm_links : list LinkModel
}.

Record LogEntry := { message : JsValue; isError : bool }.

Record NodeCreationOptions := {
  column : Z;
  nodeMaterialBlock : option NodeMaterialBlock;
  type : option string;
  connection : option nat
}.

Record LinkEvent := { le_isCreated : bool; le_link : LinkModel }.

(** How a call ends: with a value, or with a thrown value. *)
Inductive Completion (A : Type) :=
  | Normal (a : A)
  | Throw (e : JsValue).
Arguments Normal {A} a.
Arguments Throw {A} e.

(** The error of a property access on [null]. *)
Definition TypeError : JsValue := JsString "TypeError".

(** *** The state of the component

    The first three fields are the object stores; then the fields of
    [props.globalState] (with the calls made on the material, and the entries
    and notifications sent to the two observables); then the fields of
    [GraphEditor].  [engineModel] tells whether [_engine] displays [_model];
    [timers] counts the callbacks waiting in [setTimeout]. *)
Record Editor := {
  cps : gmap nat NodeMaterialConnectionPoint;
  ports : gmap nat DefaultPortModel;
  nodes : gmap nat DefaultNodeModel;
  nodeMaterial : option NodeMaterial;
  calls : list Call;
  logged : list LogEntry;
  selections : nat;
  _model : DiagramModel;
  engineModel : bool;
  _nodes : list nat;
  _toAdd : option (list LinkModel);
  _rowPos : gmap Z Z;
  timers : nat
}.

Definition with_cps (f : gmap nat NodeMaterialConnectionPoint -> gmap nat NodeMaterialConnectionPoint) (st : Editor) : Editor :=
  {| cps := f (cps st); ports := ports st; nodes := nodes st;
     nodeMaterial := nodeMaterial st; calls := calls st; logged := logged st;
     selections := selections st; _model := _model st; engineModel := engineModel st;
     _nodes := _nodes st; _toAdd := _toAdd st; _rowPos := _rowPos st; timers := timers st |}.

Definition with_ports (f : gmap nat DefaultPortModel -> gmap nat DefaultPortModel) (st : Editor) : Editor :=
  {| cps := cps st; ports := f (ports st); nodes := nodes st;
     nodeMaterial := nodeMaterial st; calls := calls st; logged := logged st;
     selections := selections st; _model := _model st; engineModel := engineModel st;
     _nodes := _nodes st; _toAdd := _toAdd st; _rowPos := _rowPos st; timers := timers st |}.

Definition with_nodes (f : gmap nat DefaultNodeModel -> gmap nat DefaultNodeModel) (st : Editor) : Editor :=
  {| cps := cps st; ports := ports st; nodes := f (nodes st);
     nodeMaterial := nodeMaterial st; calls := calls st; logged := logged st;
     selections := selections st; _model := _model st; engineModel := engineModel st;
     _nodes := _nodes st; _toAdd := _toAdd st; _rowPos := _rowPos st; timers := timers st |}.

Definition with_nodeMaterial (m : option NodeMaterial) (st : Editor) : Editor :=
  {| cps := cps st; ports := ports st; nodes := nodes st;
     nodeMaterial := m; calls := calls st; logged := logged st;
     selections := selections st; _model := _model st; engineModel := engineModel st;
     _nodes := _nodes st; _toAdd := _toAdd st; _rowPos := _rowPos st; timers := timers st |}.

Definition record_call (c : Call) (st : Editor) : Editor :=
  {| cps := cps st; ports := ports st; nodes := nodes st;
     nodeMaterial := nodeMaterial st; calls := calls st ++ [c]; logged := logged st;
     selections := selections st; _model := _model st; engineModel := engineModel st;
     _nodes := _nodes st; _toAdd := _toAdd st; _rowPos := _rowPos st; timers := timers st |}.

(** [onLogRequiredObservable.notifyObservers(entry)] *)
Definition notifyLog (entry : LogEntry) (st : Editor) : Editor :=
  {| cps := cps st; ports := ports st; nodes := nodes st;
     nodeMaterial := nodeMaterial st; calls := calls st; logged := logged st ++ [entry];
     selections := selections st; _model := _model st; engineModel := engineModel st;
     _nodes := _nodes st; _toAdd := _toAdd st; _rowPos := _rowPos st; timers := timers st |}.

(** [onSelectionChangedObservable.notifyObservers(null)] *)
Definition notifySelectionCleared (st : Editor) : Editor :=
  {| cps := cps st; ports := ports st; nodes := nodes st;
     nodeMaterial := nodeMaterial st; calls := calls st; logged := logged st;
     selections := S (selections st); _model := _model st; engineModel := engineModel st;
     _nodes := _nodes st; _toAdd := _toAdd st; _rowPos := _rowPos st; timers := timers st |}.

Definition with_model (f : DiagramModel -> DiagramModel) (st : Editor) : Editor :=
  {| cps := cps st; ports := ports st; nodes := nodes st;
     nodeMaterial := nodeMaterial st; calls := calls st; logged := logged st;
     selections := selections st; _model := f (_model st); engineModel := engineModel st;
     _nodes := _nodes st; _toAdd := _toAdd st; _rowPos := _rowPos st; timers := timers st |}.


Definition with__nodes (f : list nat -> list nat) (st : Editor) : Editor :=
  {| cps := cps st; ports := ports st; nodes := nodes st;
     nodeMaterial := nodeMaterial st; calls := calls st; logged := logged st;
     selections := selections st; _model := _model st; engineModel := engineModel st;
     _nodes := f (_nodes st); _toAdd := _toAdd st; _rowPos := _rowPos st; timers := timers st |}.


Definition with__rowPos (f : gmap Z Z -> gmap Z Z) (st : Editor) : Editor :=
  {| cps := cps st; ports := ports st; nodes := nodes st;
     nodeMaterial := nodeMaterial st; calls := calls st; logged := logged st;
     selections := selections st; _model := _model st; engineModel := engineModel st;
     _nodes := _nodes st; _toAdd := _toAdd st; _rowPos := f (_rowPos st); timers := timers st |}.

Definition with_timers (f : nat -> nat) (st : Editor) : Editor :=
  {| cps := cps st; ports := ports st; nodes := nodes st;
     nodeMaterial := nodeMaterial st; calls := calls st; logged := logged st;
     selections := selections st; _model := _model st; engineModel := engineModel st;
     _nodes := _nodes st; _toAdd := _toAdd st; _rowPos := _rowPos st; timers := f (timers st) |}.

(** [model.addAll(node)] and [model.addAll(...links)] *)
Definition addNode (n : nat) (m : DiagramModel) : DiagramModel :=
  {| dm_nodes := dm_nodes m ++ [n]; dm_links := dm_links m |}.


(** *** Field updates on the stored objects *)

Definition set_value (v : JsValue) (c : NodeMaterialConnectionPoint) : NodeMaterialConnectionPoint :=
  {| cp_name := cp_name c; value := v |}.

Definition set_port_name (s : string) (p : DefaultPortModel) : DefaultPortModel :=
  {| port_name := s; position := position p; port_connection := port_connection p;
     defaultValue := defaultValue p; port_node := port_node p |}.

Definition set_port_connection (c : option nat) (p : DefaultPortModel) : DefaultPortModel :=
  {| port_name := port_name p; position := position p; port_connection := c;
     defaultValue := defaultValue p; port_node := port_node p |}.

Definition set_defaultValue (v : JsValue) (p : DefaultPortModel) : DefaultPortModel :=
  {| port_name := port_name p; position := position p; port_connection := port_connection p;
     defaultValue := v; port_node := port_node p |}.

Definition set_node_connection (c : option nat) (n : DefaultNodeModel) : DefaultNodeModel :=
  {| node_class := node_class n; node_x := node_x n; node_y := node_y n;
     block := block n; node_connection := c; node_ports := node_ports n |}.

Definition setPosition (x y : Z) (n : DefaultNodeModel) : DefaultNodeModel :=
  {| node_class := node_class n; node_x := x; node_y := y;
     block := block n; node_connection := node_connection n; node_ports := node_ports n |}.

Definition addPort (p : nat) (n : DefaultNodeModel) : DefaultNodeModel :=
  {| node_class := node_class n; node_x := node_x n; node_y := node_y n;
     block := block n; node_connection := node_connection n;
     node_ports := node_ports n ++ [p] |}.

(** A node model as its constructor leaves it. *)
Definition newNodeModel (cls : NodeModelClass) : DefaultNodeModel :=
  {| node_class := cls; node_x := 0; node_y := 0; block := None;
     node_connection := None; node_ports := [] |}.

(** Reads through a reference held in a field. *)
Definition portConnection (st : Editor) (p : nat) : option nat :=
  ports st !! p ≫= port_connection.

Definition portName (st : Editor) (p : nat) : string :=
  default "" (port_name <$> ports st !! p).

Definition portDefaultValue (st : Editor) (p : nat) : JsValue :=
  default JsUndefined (defaultValue <$> ports st !! p).

Definition cpName (st : Editor) (c : nat) : string :=
  default "" (cp_name <$> cps st !! c).

Definition cpValue (st : Editor) (c : nat) : JsValue :=
  default JsUndefined (value <$> cps st !! c).

(** *** Link orientation *)

Record SortedLink := { input : nat; output : nat }.

(** Modelled from the spec: [DefaultPortModel.SortInputOutput] is not part of
    these files.  Section 4.2: when one of the two ports has direction input
    and the other direction output, the pair comes back labelled; in every
    other case (both input, both output, a missing or malformed port) the
    result is null. *)
Definition SortInputOutput (st : Editor) (a b : option nat) : option SortedLink :=
  match a, b with
  | Some a, Some b =>
      match ports st !! a, ports st !! b with
      | Some pa, Some pb =>
          if String.eqb (position pa) "input" && String.eqb (position pb) "output"
          then Some {| input := a; output := b |}
          else if String.eqb (position pb) "input" && String.eqb (position pa) "output"
          then Some {| input := b; output := a |}
          else None
      | _, _ => None
      end
  | _, _ => None
  end.

(** Modelled from the spec: [DefaultPortModel.syncWithNodeMaterialConnectionPoint]
    is not part of these files.  Sections 4.3 and 8: the port comes to
    reference the connection point and takes its caption from it. *)
Definition syncWithNodeMaterialConnectionPoint (p c : nat) (st : Editor) : Editor :=
  with_ports (alter (fun pm => set_port_name (cpName st c) (set_port_connection (Some c) pm)) p) st.

(** *** Layout *)

(** The row for the next node of column [c]. *)
Definition next_row (rowPos : gmap Z Z) (c : Z) : Z :=
  match rowPos !! c with
  | None => 0
  | Some r => r + 1
  end.

(** The model class and the input filter chosen for a block. *)
Definition classify (b : NodeMaterialBlock) : NodeModelClass * list string :=
  match block_class b with
  | TextureBlock => (TextureNodeModel, ["uv"])
  | LightBlock => (LightNodeModel, ["worldPosition"; "worldNormal"; "cameraPosition"])
  | OtherBlock => (GenericNodeModel, [])
  end.

(** The switch of [addValueNode]. *)
Definition literalDefault (type : string) : JsValue :=
  if String.eqb type "Vector2" then Vector2_Zero
  else if String.eqb type "Vector3" then Vector3_Zero
  else if String.eqb type "Vector4" then Vector4_Zero
  else if String.eqb type "Matrix" then Matrix_Identity
  else if String.eqb type "Color3" then Color3_White
  else if String.eqb type "Color4" then Color4 1 1 1 1
  else JsUndefined.

Section Engine.

(** [DefaultNodeModel.prepare] is not part of these files: it receives the
    options, the new node, the input filter and the editor, and may do
    anything to the editor (it builds the ports and recurses into
    [createNodeFromObject] for the predecessors). *)
Variable prepare : NodeCreationOptions -> nat -> list string -> Editor -> Editor.

(** [connectTo] and [disconnectFrom] of a connection point, called on the
    output point with the input point as argument: unknown effects on the
    connection points. *)
Variables connectTo disconnectFrom :
  nat -> nat -> gmap nat NodeMaterialConnectionPoint -> gmap nat NodeMaterialConnectionPoint.

(** [NodeMaterial.build]: works on the material from the connection points
    and either returns or throws a value. *)
Variable nodeMaterial_build :
  NodeMaterial -> gmap nat NodeMaterialConnectionPoint -> NodeMaterial * option JsValue.

(** [createNodeFromObject] up to, and without, the call of [prepare]: the
    row bookkeeping, the choice of the node model, the registration of a
    final merger, and the insertion of the node.  Returns the new node and
    the input filter. *)
Definition placeNode (options : NodeCreationOptions) (st : Editor)
    : Completion (nat * list string) * Editor :=
  let c := column options in
  (* Update rows/columns *)
  let st := with__rowPos (fun rp => <[c := next_row rp c]> rp) st in
  (* Create new node in the graph *)
  let made : Completion (DefaultNodeModel * list string) * Editor :=
    match nodeMaterialBlock options with
    | Some b =>
        let '(cls, filterInputs) := classify b in
        if isFinalMerger b then
          match nodeMaterial st with
          | Some m =>
              (Normal (newNodeModel cls, filterInputs),
               record_call (CallAddOutputNode b)
                 (with_nodeMaterial (Some (addOutputNode b m)) st))
          | None => (Throw TypeError, st)
          end
        else (Normal (newNodeModel cls, filterInputs), st)
    | None =>
        (Normal (set_node_connection (connection options) (newNodeModel InputNodeModel), []), st)
    end in
  match made with
  | (Normal (newNode, filterInputs), st) =>
      let n := fresh (dom (nodes st)) in
      let st := with__nodes (fun l => l ++ [n]) st in
      let newNode :=
        setPosition (1600 - 300 * c) (210 * default 0 (_rowPos st !! c)) newNode in
      let st := with_nodes <[n := newNode]> st in
      let st := with_model (addNode n) st in
      (Normal (n, filterInputs), st)
  | (Throw e, st) => (Throw e, st)
  end.

Definition createNodeFromObject (options : NodeCreationOptions) (st : Editor)
    : Completion nat * Editor :=
  match placeNode options st with
  | (Normal (n, filterInputs), st) =>
      match nodeMaterialBlock options with
      | Some _ => (Normal n, prepare options n filterInputs st)
      | None => (Normal n, st)
      end
  | (Throw e, st) => (Throw e, st)
  end.

Definition buildMaterial (st : Editor) : Editor :=
  match nodeMaterial st with
  | None => st
  | Some m =>
      let '(m', thrown) := nodeMaterial_build m (cps st) in
      let st := record_call (CallBuild true) (with_nodeMaterial (Some m') st) in
      match thrown with
      | None =>
          notifyLog {| message := JsString "Node material build successful";
                       isError := false |} st
      | Some err => notifyLog {| message := err; isError := true |} st
      end
  end.

(** [if (this.props.globalState.nodeMaterial) { this.buildMaterial(); }] *)
Definition buildMaterialIfAny (st : Editor) : Editor :=
  match nodeMaterial st with
  | Some _ => buildMaterial st
  | None => st
  end.


(** The [linksUpdated] listener.  (It also hangs the two port listeners on
    the link; [targetPortChanged] below is the second of them.) *)
Definition linksUpdated (e : LinkEvent) (st : Editor) : Editor :=
  if negb (le_isCreated e) then
    (* Link is deleted *)
    let st := notifySelectionCleared st in
    match SortInputOutput st (sourcePort (le_link e)) (targetPort (le_link e)) with
    | Some link =>
        match portConnection st (input link) with
        | Some ic =>
            match portConnection st (output link) with
            | Some oc =>
                (* Disconnect standard nodes *)
                let st := record_call (CallDisconnectFrom oc ic)
                            (with_cps (disconnectFrom oc ic) st) in
                let st := syncWithNodeMaterialConnectionPoint (input link) ic st in
                syncWithNodeMaterialConnectionPoint (output link) oc st
            | None =>
                if ToBoolean (cpValue st ic)
                then with_cps (alter (set_value JsNull) ic) st
                else st
            end
        | None => st
        end
    | None => st
    end
  else st.

(** The [targetPortChanged] listener of a link. *)
Definition targetPortChanged (l : LinkModel) (st : Editor) : Editor :=
  (* Link is created with a target port *)
  match SortInputOutput st (sourcePort l) (targetPort l) with
  | Some link =>
      let st :=
        match portConnection st (output link), portConnection st (input link) with
        | Some oc, Some ic =>
            record_call (CallConnectTo oc ic) (with_cps (connectTo oc ic) st)
        | None, Some ic =>
            (* Input Node *)
            let name := portName st (output link) in
            let st := syncWithNodeMaterialConnectionPoint (output link) ic st in
            let st := with_ports (alter (set_port_name name) (output link)) st in
            let st :=
              match ports st !! output link with
              | Some po =>
                  with_nodes (alter (set_node_connection (port_connection po)) (port_node po)) st
              | None => st
              end in
            with_cps (alter (set_value (portDefaultValue st (output link))) ic) st
        | _, None => st
        end in
      buildMaterialIfAny st
  | None => st
  end.

(** A [forEach] loop of [build]: one node, in column 0, per output block; a
    throw ends the loop. *)
Fixpoint createRoots (roots : list NodeMaterialBlock) (st : Editor)
    : Completion unit * Editor :=
  match roots with
  | [] => (Normal tt, st)
  | n :: roots' =>
      match createNodeFromObject
              {| column := 0; nodeMaterialBlock := Some n; type := None; connection := None |} st with
      | (Normal _, st) => createRoots roots' st
      | (Throw e, st) => (Throw e, st)
      end
  end.




(** The observer of [onRebuildRequiredObservable]. *)
Definition onRebuildRequired (st : Editor) : Editor := buildMaterialIfAny st.

(** [addNodeFromClass], given the block that [new ObjectClass(...)] made: the
    node is created, and the callback that fires the [MoveCanvasAction] is
    left with [setTimeout]. *)
Definition addNodeFromClass (newBlock : NodeMaterialBlock) (st : Editor)
    : Completion nat * Editor :=
  match createNodeFromObject
          {| column := 0; nodeMaterialBlock := Some newBlock; type := None;
             connection := None |} st with
  | (Normal localNode, st) => (Normal localNode, with_timers S st)
  | thrown => thrown
  end.

(** The callback that [addNodeFromClass] leaves with [setTimeout]; the canvas
    action only concerns the widget. *)
Definition moveCanvas (st : Editor) : Editor := with_timers pred st.

Definition addValueNode (type : string) (column : Z) (connection : option nat)
    (st : Editor) : Completion nat * Editor :=
  match createNodeFromObject
          {| column := column; nodeMaterialBlock := None; type := Some type;
             connection := connection |} st with
  | (Normal localNode, st) =>
      let outPort := fresh (dom (ports st)) in
      let st :=
        with_ports <[outPort := {| port_name := type; position := "output";
                                   port_connection := None; defaultValue := JsUndefined;
                                   port_node := localNode |}]> st in
      let st := with_nodes (alter (addPort outPort) localNode) st in
      let st :=
        match connection with
        | None => with_ports (alter (set_defaultValue (literalDefault type)) outPort) st
        | Some _ => st
        end in
      (Normal localNode, st)
  | thrown => thrown
  end.

End Engine.

(** *** Concrete collaborators, for the examples *)

(** The component as its field initialisers leave it, with an empty diagram
    model, for a given [globalState.nodeMaterial]. *)
Definition initialEditor (m : option NodeMaterial) : Editor :=
  {| cps := ∅; ports := ∅; nodes := ∅;
     nodeMaterial := m; calls := []; logged := []; selections := 0;
     _model := {| dm_nodes := []; dm_links := [] |}; engineModel := false;
     _nodes := []; _toAdd := Some []; _rowPos := ∅; timers := 0 |}.

Definition set_block (b : option NodeMaterialBlock) (n : DefaultNodeModel) : DefaultNodeModel :=
  {| node_class := node_class n; node_x := node_x n; node_y := node_y n;
     block := b; node_connection := node_connection n; node_ports := node_ports n |}.

(** Modelled from the spec: [DefaultNodeModel.prepare] is not part of these
    files.  Section 3 gives a node an ownership link to its block; for a block
    without connection points there is no port to build and no predecessor to
    recurse into, so this instance only records the block on the node. *)
Definition prepare_leaf (options : NodeCreationOptions) (n : nat)
    (filterInputs : list string) (st : Editor) : Editor :=
  with_nodes (alter (set_block (nodeMaterialBlock options)) n) st.

(** Connection calls that leave the stored fields of the points alone. *)
Definition no_effect (output input : nat)
    (c : gmap nat NodeMaterialConnectionPoint) : gmap nat NodeMaterialConnectionPoint := c.

(** A build that returns, and a build that throws [err]. *)
Definition build_ok (m : NodeMaterial) (c : gmap nat NodeMaterialConnectionPoint)
    : NodeMaterial * option JsValue := (m, None).

Definition build_throws (err : JsValue) (m : NodeMaterial)
    (c : gmap nat NodeMaterialConnectionPoint) : NodeMaterial * option JsValue :=
  (m, Some err).

(** An editor that shows one node, [0], with one input port, [3], bound to
    the connection point [7] (named "uv", holding [v]); the material has no
    output yet. *)
Definition boundInputEditor (v : JsValue) : Editor :=
  {| cps := {[ 7%nat := {| cp_name := "uv"; value := v |} ]};
     ports := {[ 3%nat := {| port_name := "uv"; position := "input";
                             port_connection := Some 7%nat;
                             defaultValue := JsUndefined; port_node := 0%nat |} ]};
     nodes := {[ 0%nat := addPort 3%nat (newNodeModel GenericNodeModel) ]};
     nodeMaterial := Some {| _vertexOutputNodes := []; _fragmentOutputNodes := [] |};
     calls := []; logged := []; selections := 0;
     _model := {| dm_nodes := [0%nat]; dm_links := [] |}; engineModel := true;
     _nodes := [0%nat]; _toAdd := None; _rowPos := {[ 0 := 0 ]}; timers := 0 |}.

(** The same editor after [addValueNode("Vector3")]: the literal node is [1],
    its output port is [4]. *)
Definition literalEditor (v : JsValue) : Editor :=
  (addValueNode prepare_leaf "Vector3" 0 None (boundInputEditor v)).2.

(** A fragment output block. *)
Definition fragmentOutput : NodeMaterialBlock :=
  {| block_id := 0; block_class := OtherBlock; isFinalMerger := true; target := Fragment |}.

End GraphEditor.

(** ** Registration of events in the hub *)

Module HubEvents.
Import InputHub.

Inductive InputHubDevice := Keyboard | Mouse.

(** A trigger as [addEvent] receives it: the [device] tag, with the fields of
    the interface that the tag makes [addEvent] cast to. *)
Inductive EventTrigger :=
  | KeyboardTrigger (t : IInputHubKeyboardEventTrigger)
  | MouseTrigger (t : IInputHubMouseEventTrigger).

Definition device (t : EventTrigger) : InputHubDevice :=
  match t with
  | KeyboardTrigger _ => Keyboard
  | MouseTrigger _ => Mouse
  end.

Definition addKeyboardEvent (name : string) (trigger : IInputHubKeyboardEventTrigger)
    (h : Hub) : Hub :=
  {| _keyboardHubEvents :=
       _keyboardHubEvents h ++ [{| ke_name := name; ke_trigger := trigger |}];
     _mouseHubEvents := _mouseHubEvents h;
     _modifierStates := _modifierStates h |}.

Definition addMouseEvent (name : string) (trigger : IInputHubMouseEventTrigger)
    (h : Hub) : Hub :=
  {| _keyboardHubEvents := _keyboardHubEvents h;
     _mouseHubEvents :=
       _mouseHubEvents h ++ [{| me_name := name; me_trigger := trigger |}];
     _modifierStates := _modifierStates h |}.

(** [addEvent]: every trigger of the list is registered under [name], on the
    side its device selects. *)
Fixpoint addEvent (name : string) (triggers : list EventTrigger) (h : Hub) : Hub :=
  match triggers with
  | [] => h
  | trigger :: triggers' =>
      addEvent name triggers'
        match trigger with
        | KeyboardTrigger k => addKeyboardEvent name k h
        | MouseTrigger m => addMouseEvent name m h
        end
  end.

(** The key codes that the keyboard observers take for Shift, Ctrl and Alt. *)
Definition isModifierKey (keyCode : Z) : bool :=
  (keyCode =? 16) || (keyCode =? 17) || (keyCode =? 18).

(** The prefix of the flags that belong to a modifier key code. *)
Definition modifierPrefix (keyCode : Z) : option string :=
  if keyCode =? 16 then Some "shift"
  else if keyCode =? 17 then Some "ctrl"
  else if keyCode =? 18 then Some "alt"
  else None.

(** A list of names without its repetitions: every name stays where it
    occurs first. *)
Fixpoint firstOccurrences (names : list string) : list string :=
  match names with
  | [] => []
  | x :: names' => x :: filter (fun y => y ≠ x) (firstOccurrences names')
  end.

(** Whether a trigger asks for the modifier with the given prefix. *)
Definition requiresModifier (prefix : string) (t : IInputHubEventTrigger) : bool :=
  if String.eqb prefix "alt" then truthy (altModifier t)
  else if String.eqb prefix "shift" then truthy (shiftModifier t)
  else if String.eqb prefix "ctrl" then truthy (ctrlModifier t)
  else false.

(** A trigger that asks for no modifier and fires on key down. *)
Definition plainTrigger (t : IInputHubEventTrigger) : bool :=
  negb (truthy (altModifier t)) && negb (truthy (shiftModifier t))
  && negb (truthy (ctrlModifier t)) && negb (truthy (released t)).

End HubEvents.

(** ** The resizable columns of the graph editor *)

Module Splitter.

(** The two fields of a pointer event that the handlers read.  Coordinates
    and widths are taken as whole pixels; what is stated below about them
    uses comparisons and the clamp only, not the exact value of a sum. *)
Record PointerEvt := { clientX : Z; pointerId : Z }.

(** The fields of [GraphEditor] behind the two grab bars, with the stored
    numbers of [DataStorage], the pointer that the grab bar has captured, and
    the [gridTemplateColumns] style of the root element. *)
Record Columns := {
  _startX : Z;
  _moveInProgress : bool;
  _leftWidth : Z;
  _rightWidth : Z;
  dataStorage : gmap string Z;
  pointerCapture : option Z;
  gridTemplateColumns : string
}.

(** Modelled from the spec: [DataStorage] is not part of these files; section
    6 makes it a key-value store for the panel widths.  [ReadNumber] falls
    back on its second argument when the key is missing. *)
Definition ReadNumber (key : string) (defaultValue : Z) (store : gmap string Z) : Z :=
  default defaultValue (store !! key).

Definition StoreNumber (key : string) (v : Z) (store : gmap string Z) : gmap string Z :=
  <[key := v]> store.

Definition buildColumnLayout (st : Columns) : string :=
  pretty (_leftWidth st) +:+ "px 4px calc(100% - "
  +:+ pretty (_leftWidth st + 8 + _rightWidth st) +:+ "px) 4px "
  +:+ pretty (_rightWidth st) +:+ "px".

(** The column fields as the initialisers leave them, over a given store. *)
Definition initialColumns (store : gmap string Z) : Columns :=
  {| _startX := 0; _moveInProgress := false;
     _leftWidth := ReadNumber "LeftWidth" 200 store;
     _rightWidth := ReadNumber "RightWidth" 300 store;
     dataStorage := store; pointerCapture := None;
     gridTemplateColumns :=
       buildColumnLayout
         {| _startX := 0; _moveInProgress := false;
            _leftWidth := ReadNumber "LeftWidth" 200 store;
            _rightWidth := ReadNumber "RightWidth" 300 store;
            dataStorage := store; pointerCapture := None;
            gridTemplateColumns := "" |} |}.

Definition onPointerDown (evt : PointerEvt) (st : Columns) : Columns :=
  {| _startX := clientX evt; _moveInProgress := true;
     _leftWidth := _leftWidth st; _rightWidth := _rightWidth st;
     dataStorage := dataStorage st; pointerCapture := Some (pointerId evt);
     gridTemplateColumns := gridTemplateColumns st |}.

Definition onPointerUp (evt : PointerEvt) (st : Columns) : Columns :=
  {| _startX := _startX st; _moveInProgress := false;
     _leftWidth := _leftWidth st; _rightWidth := _rightWidth st;
     dataStorage := dataStorage st;
     pointerCapture :=
       if decide (pointerCapture st = Some (pointerId evt)) then None
       else pointerCapture st;
     gridTemplateColumns := gridTemplateColumns st |}.

(** [Math.max(lo, Math.min(hi, v))] *)
Definition clamp (lo hi v : Z) : Z := Z.max lo (Z.min hi v).

Definition resizeColumns (evt : PointerEvt) (forLeft : bool) (st : Columns) : Columns :=
  if negb (_moveInProgress st) then st
  else
    let deltaX := clientX evt - _startX st in
    let st :=
      if forLeft then
        let w := clamp 150 400 (_leftWidth st + deltaX) in
        {| _startX := _startX st; _moveInProgress := _moveInProgress st;
           _leftWidth := w; _rightWidth := _rightWidth st;
           dataStorage := StoreNumber "LeftWidth" w (dataStorage st);
           pointerCapture := pointerCapture st;
           gridTemplateColumns := gridTemplateColumns st |}
      else
        let w := clamp 250 500 (_rightWidth st - deltaX) in
        {| _startX := _startX st; _moveInProgress := _moveInProgress st;
           _leftWidth := _leftWidth st; _rightWidth := w;
           dataStorage := StoreNumber "RightWidth" w (dataStorage st);
           pointerCapture := pointerCapture st;
           gridTemplateColumns := gridTemplateColumns st |} in
    {| _startX := clientX evt; _moveInProgress := _moveInProgress st;
       _leftWidth := _leftWidth st; _rightWidth := _rightWidth st;
       dataStorage := dataStorage st; pointerCapture := pointerCapture st;
       gridTemplateColumns := buildColumnLayout st |}.

End Splitter.

(** ** The layout of the diagram model *)

Module Layout.
Import GraphEditor.

(** Every node of the diagram model sits on the grid, in a row that the
    counter of its column has already passed. *)
Definition layout_ok (st : Editor) : Prop :=
  forall n nd,
    n ∈ dm_nodes (_model st) -> nodes st !! n = Some nd ->
    exists c r k,
      node_x nd = 1600 - 300 * c /\ node_y nd = 210 * k
      /\ _rowPos st !! c = Some r /\ k <= r.

(** The position of a stored node. *)
Definition positionOf (st : Editor) (n : nat) : option (Z * Z) :=
  (fun nd => (node_x nd, node_y nd)) <$> nodes st !! n.

End Layout.

(** ** Sample states *)

Module Samples.
Import InputHub HubEvents GraphEditor Splitter.

(** A trigger on key [k] with no modifier, firing on key down. *)
Definition plainKey (k : Z) : IInputHubKeyboardEventTrigger :=
  {| kt_base := {| altModifier := None; shiftModifier := None; ctrlModifier := None;
                   released := None; rightModifier := None |};
     kt_keyCode := k |}.

(** A trigger on key [k] that asks for Shift. *)
Definition shiftKeyTrigger (k : Z) : IInputHubKeyboardEventTrigger :=
  {| kt_base := {| altModifier := None; shiftModifier := Some true; ctrlModifier := None;
                   released := None; rightModifier := None |};
     kt_keyCode := k |}.

Definition leftButton : IInputHubMouseEventTrigger :=
  {| mt_base := {| altModifier := None; shiftModifier := None; ctrlModifier := None;
                   released := None; rightModifier := None |};
     mt_button := 0 |}.

Definition emptyHub : Hub :=
  {| _keyboardHubEvents := []; _mouseHubEvents := []; _modifierStates := ∅ |}.

(** A hub that has seen both Shift keys go down. *)
Definition bothShiftsHub : Hub :=
  {| _keyboardHubEvents := []; _mouseHubEvents := [];
     _modifierStates :=
       {[ "shift" := true; "shiftLeft" := true; "shiftRight" := true ]} |}.

(** A key event of type [type] (1 is key down, 2 is key up in the samples). *)
Definition keyEvent (type keyCode location : Z) : KeyboardInfo :=
  {| kb_type := type;
     kb_event := {| InputHub.keyCode := keyCode; InputHub.location := location;
                    altKey := false; shiftKey := false; ctrlKey := false |} |}.

(** An editor with two bound ports: the input port [3] of node [0], bound to
    the point [7], and the output port [5] of node [1], bound to the point
    [8] and captioned by the user. *)
Definition twoBoundEditor : Editor :=
  {| cps := {[ 7%nat := {| cp_name := "uv"; value := JsUndefined |};
               8%nat := {| cp_name := "output"; value := JsUndefined |} ]};
     ports := {[ 3%nat := {| port_name := "uv"; position := "input";
                             port_connection := Some 7%nat;
                             defaultValue := JsUndefined; port_node := 0%nat |};
                 5%nat := {| port_name := "my caption"; position := "output";
                             port_connection := Some 8%nat;
                             defaultValue := JsUndefined; port_node := 1%nat |} ]};
     nodes := {[ 0%nat := addPort 3%nat (newNodeModel GenericNodeModel);
                 1%nat := addPort 5%nat (newNodeModel GenericNodeModel) ]};
     nodeMaterial := Some {| _vertexOutputNodes := []; _fragmentOutputNodes := [] |};
     calls := []; logged := []; selections := 0;
     _model := {| dm_nodes := [0%nat; 1%nat]; dm_links := [] |}; engineModel := true;
     _nodes := [0%nat; 1%nat]; _toAdd := None; _rowPos := {[ 0 := 1 ]}; timers := 0 |}.

(** The same editor with the input port [3] not bound. *)
Definition unboundInputEditor : Editor :=
  with_ports (alter (set_port_connection None) 3%nat) twoBoundEditor.

Definition link_5_3 : LinkModel := {| sourcePort := Some 5%nat; targetPort := Some 3%nat |}.
Definition link_4_3 : LinkModel := {| sourcePort := Some 4%nat; targetPort := Some 3%nat |}.

(** Options for a node without a block, and for the fragment output. *)
Definition inputOptions (c : Z) : NodeCreationOptions :=
  {| column := c; nodeMaterialBlock := None; type := None; connection := None |}.


Definition vertexOutput : NodeMaterialBlock :=
  {| block_id := 1; block_class := OtherBlock; isFinalMerger := true; target := Vertex |}.

Definition emptyMaterial : NodeMaterial :=
  {| _vertexOutputNodes := []; _fragmentOutputNodes := [] |}.

(** An instance of [prepare] that recurses: it records the block, like
    [prepare_leaf], and makes one literal node for an input of the block, in
    the next column. *)
Definition prepare_with_input (options : NodeCreationOptions) (n : nat)
    (filterInputs : list string) (st : Editor) : Editor :=
  (addValueNode prepare_leaf "Vector3" (column options + 1) None
     (prepare_leaf options n filterInputs st)).2.



(** The grab bars after a pointer down at x = 10, over an empty store. *)
Definition grabbed : Columns :=
  onPointerDown {| clientX := 10; pointerId := 1 |} (initialColumns ∅).

Definition pointerAt (x : Z) : PointerEvt := {| clientX := x; pointerId := 1 |}.

End Samples.

(** * Properties *)

(** ** Helpers on lists *)

Lemma indexOf_from_absent {A} `{EqDecision A} (l : list A) (x : A) (i : Z) :
  0 <= i -> (indexOf_from i l x = -1 <-> x ∉ l).
Proof.
  revert i. induction l as [|y l IH]; intros i Hi; simpl.
  - split; [intros _; apply not_elem_of_nil | done].
  - destruct (decide (y = x)) as [->|Hne].
    + split; [lia | intros Hn; exfalso; apply Hn; left].
    + rewrite (IH (i + 1)) by lia. rewrite not_elem_of_cons. intuition congruence.
Qed.

Lemma indexOf_absent {A} `{EqDecision A} (l : list A) (x : A) :
  indexOf l x = -1 <-> x ∉ l.
Proof. apply indexOf_from_absent. lia. Qed.

(** ** The input hub raises a name once per hardware event *)

Section HubFacts.
Import InputHub.

Context {E : Type} (name : E -> string) (fires : E -> bool).

(** The loop keeps [notified] equal to [raisedEvents], and free of
    repetitions. *)
Lemma raise_once (events : list E) :
  forall raisedEvents notified,
    raisedEvents = notified -> NoDup notified ->
    (raise name fires events raisedEvents notified).1
      = (raise name fires events raisedEvents notified).2
    /\ NoDup (raise name fires events raisedEvents notified).2.
Proof.
  induction events as [|e events IH]; intros raisedEvents notified Heq Hnd; simpl.
  - done.
  - destruct (fires e); [|by apply IH].
    destruct (indexOf raisedEvents (name e) =? -1) eqn:Hidx; simpl.
    + apply IH; [by rewrite Heq|].
      apply Z.eqb_eq, indexOf_absent in Hidx. subst notified.
      apply NoDup_app. split_and!; [done | | apply NoDup_singleton].
      intros x Hx ->%list_elem_of_singleton. done.
    + by apply IH.
Qed.

Lemma raise_fresh_NoDup (events : list E) :
  NoDup (raise name fires events [] []).2.
Proof. apply raise_once; [done | apply NoDup_nil_2]. Qed.

End HubFacts.

(** C10.  In the two revisions of [InputHub] that keep a [raisedEvents] list,
    the pointer observer and both keyboard observers hand each name to
    [onEventObservable] at most once for one hardware event, whatever the
    registered triggers are: the list of notified names has no repetition. *)
Theorem hub_notifies_each_name_once
    (KEYDOWN KEYUP POINTERDOWN POINTERUP : Z) (h : InputHub.Hub) :
  (forall evt, NoDup (InputHub.onPointer POINTERDOWN POINTERUP h evt))
  /\ (forall evt, NoDup (InputHub.onKeyboard KEYDOWN KEYUP h evt).2)
  /\ (forall evt, NoDup (InputHub.onKeyboard' KEYDOWN KEYUP h evt).2).
Proof.
  split_and!; intros evt.
  - apply raise_fresh_NoDup.
  - unfold InputHub.onKeyboard.
    repeat (destruct (_ =? _); [apply NoDup_nil_2|]).
    apply raise_fresh_NoDup.
  - unfold InputHub.onKeyboard'.
    repeat (destruct (_ =? _); [apply NoDup_nil_2|]).
    apply raise_fresh_NoDup.
Qed.

(** The first revision has no [raisedEvents]: two triggers with one name
    raise it twice.  (Key 65 down, with [KEYDOWN = 1] and [KEYUP = 2].) *)
Example first_revision_raises_twice :
  let t := {| InputHub.kt_base :=
                {| InputHub.altModifier := None; InputHub.shiftModifier := None;
                   InputHub.ctrlModifier := None; InputHub.released := None;
                   InputHub.rightModifier := None |};
              InputHub.kt_keyCode := 65 |} in
  let h := {| InputHub._keyboardHubEvents :=
                [ {| InputHub.ke_name := "jump"; InputHub.ke_trigger := t |};
                  {| InputHub.ke_name := "jump"; InputHub.ke_trigger := t |} ];
              InputHub._mouseHubEvents := [];
              InputHub._modifierStates := ∅ |} in
  let evt := {| InputHub.kb_type := 1;
                InputHub.kb_event :=
                  {| InputHub.keyCode := 65; InputHub.location := 0;
                     InputHub.altKey := false; InputHub.shiftKey := false;
                     InputHub.ctrlKey := false |} |} in
  InputHub.onKeyboard0 1 2 h evt = ["jump"; "jump"]
  /\ (InputHub.onKeyboard 1 2 h evt).2 = ["jump"].
Proof. split; reflexivity. Qed.

(** ** Link orientation *)

Section OrientationFacts.
Import GraphEditor.

(** Orientation only looks at the ports. *)
Lemma SortInputOutput_ports (st st' : Editor) (a b : option nat) :
  ports st' = ports st -> SortInputOutput st' a b = SortInputOutput st a b.
Proof. intros H. unfold SortInputOutput. by rewrite H. Qed.

(** Two ports of one direction never make a link. *)
Lemma SortInputOutput_same_direction (st : Editor) (a b : nat) pa pb :
  ports st !! a = Some pa -> ports st !! b = Some pb ->
  position pa = position pb -> SortInputOutput st (Some a) (Some b) = None.
Proof.
  intros Ha Hb Hp. unfold SortInputOutput. rewrite Ha, Hb, Hp.
  destruct (String.eqb_spec (position pb) "input") as [Hi|Hi];
    destruct (String.eqb_spec (position pb) "output") as [Ho|Ho];
    simpl; try done; congruence.
Qed.

(** A resolved pair: both ports exist, with the directions of their labels. *)
Lemma SortInputOutput_Some (st : Editor) (a b : option nat) (l : SortedLink) :
  SortInputOutput st a b = Some l ->
  exists pi po,
    ports st !! input l = Some pi /\ position pi = "input"
    /\ ports st !! output l = Some po /\ position po = "output".
Proof.
  unfold SortInputOutput.
  destruct a as [a|], b as [b|]; try done.
  destruct (ports st !! a) as [pa|] eqn:Ha; [|done].
  destruct (ports st !! b) as [pb|] eqn:Hb; [|done].
  destruct (String.eqb_spec (position pa) "input") as [Hai|];
    destruct (String.eqb_spec (position pb) "output") as [Hbo|]; simpl;
    try (intros [= <-]; simpl; by eauto 10).
  all: destruct (String.eqb_spec (position pb) "input") as [Hbi|];
    destruct (String.eqb_spec (position pa) "output") as [Hao|]; simpl;
    try done; intros [= <-]; simpl; by eauto 10.
Qed.

End OrientationFacts.

(** C6.  Orientation resolution does not depend on the order of its two
    arguments: [SortInputOutput a b] and [SortInputOutput b a] are the same
    labelled pair, or are both null. *)
Theorem SortInputOutput_comm (st : GraphEditor.Editor) (a b : option nat) :
  GraphEditor.SortInputOutput st a b = GraphEditor.SortInputOutput st b a.
Proof.
  unfold GraphEditor.SortInputOutput.
  destruct a as [a|], b as [b|]; try done.
  destruct (GraphEditor.ports st !! a) as [pa|], (GraphEditor.ports st !! b) as [pb|]; try done.
  destruct (String.eqb_spec (GraphEditor.position pa) "input") as [Ha|Ha];
    destruct (String.eqb_spec (GraphEditor.position pb) "output") as [Hb|Hb];
    destruct (String.eqb_spec (GraphEditor.position pb) "input") as [Hc|Hc];
    destruct (String.eqb_spec (GraphEditor.position pa) "output") as [Hd|Hd];
    simpl; try done; congruence.
Qed.

(** ** Construction of nodes *)

Section ConstructionFacts.
Import GraphEditor.

Variable prepare : NodeCreationOptions -> nat -> list string -> Editor -> Editor.

(** [createNodeFromObject] is [placeNode], then [prepare] when there is a
    block. *)
Lemma createNodeFromObject_placeNode (options : NodeCreationOptions) (st : Editor) :
  createNodeFromObject prepare options st =
  match placeNode options st with
  | (Normal (n, filterInputs), st1) =>
      (Normal n,
       match nodeMaterialBlock options with
       | Some _ => prepare options n filterInputs st1
       | None => st1
       end)
  | (Throw e, st1) => (Throw e, st1)
  end.
Proof.
  unfold createNodeFromObject.
  destruct (placeNode options st) as [[[n fi]|e] st1]; [|done].
  by destruct (nodeMaterialBlock options).
Qed.

(** The paths through [placeNode]: a block that is a final merger (with and
    without a material), another block, no block. *)
Ltac placeNode_paths options st :=
  unfold placeNode;
  destruct (nodeMaterialBlock options) as [?b|];
  [ destruct (classify _) as [?cls ?fi];
    destruct (isFinalMerger _) eqn:?;
    [ simpl; destruct (nodeMaterial st) eqn:? | ]
  | ].


(** What [placeNode] does to the layout counters, in every case. *)
Lemma placeNode_rowPos (options : NodeCreationOptions) (st : Editor) :
  _rowPos (placeNode options st).2
  = <[column options := next_row (_rowPos st) (column options)]> (_rowPos st).
Proof. placeNode_paths options st; done. Qed.



(** C2.  Every call of [createNodeFromObject] with column [c] takes the row
    [_rowPos[c] + 1] when the column has an entry and [0] otherwise, and stores
    it in [_rowPos[c]].  The call makes a node, which it puts at
    [x = 1600 - 300 * c], [y = 210 * row] before [prepare] is entered (or the
    call returns, without a block), in every case but one: for a final merger
    while no node material is set, it throws after the row is stored. *)
Theorem createNodeFromObject_row_and_position
    (options : NodeCreationOptions) (st : Editor) :
  let c := column options in
  let row := match _rowPos st !! c with Some r => r + 1 | None => 0 end in
  let throws :=
    match nodeMaterialBlock options, nodeMaterial st with
    | Some b, None => isFinalMerger b
    | _, _ => false
    end in
  if throws then
    createNodeFromObject prepare options st
    = (Throw TypeError, with__rowPos (fun rp => <[c := row]> rp) st)
  else
    exists n filterInputs st1,
      placeNode options st = (Normal (n, filterInputs), st1)
      /\ createNodeFromObject prepare options st
         = (Normal n,
            match nodeMaterialBlock options with
            | Some _ => prepare options n filterInputs st1
            | None => st1
            end)
      /\ _rowPos st1 = <[c := row]> (_rowPos st)
      /\ n ∈ _nodes st1
      /\ n ∈ dm_nodes (_model st1)
      /\ exists nd,
           nodes st1 !! n = Some nd
           /\ node_x nd = 1600 - 300 * c /\ node_y nd = 210 * row.
Proof.
  intros c row throws. subst throws.
  unfold createNodeFromObject, placeNode.
  destruct (nodeMaterialBlock options) as [b|] eqn:Hb.
  - destruct (classify b) as [cls fi].
    destruct (isFinalMerger b) eqn:Hf; simpl.
    + destruct (nodeMaterial st) as [m|] eqn:Hm; simpl; [|done].
      do 3 eexists. split; [reflexivity|]. simpl. rewrite lookup_insert_eq. simpl.
      split_and!; try done; try (apply elem_of_app; right; left).
      eexists. by rewrite lookup_insert_eq.
    + assert (match nodeMaterial st with Some _ | None => false end = false) as ->
        by by destruct (nodeMaterial st).
      do 3 eexists. split; [reflexivity|]. simpl. rewrite lookup_insert_eq. simpl.
      split_and!; try done; try (apply elem_of_app; right; left).
      eexists. by rewrite lookup_insert_eq.
  - do 3 eexists. split; [reflexivity|]. simpl. rewrite lookup_insert_eq. simpl.
    split_and!; try done; try (apply elem_of_app; right; left).
    eexists. by rewrite lookup_insert_eq.
Qed.





(** C9.  [addValueNode] without a connection gives the node one output port,
    named after the type, whose default value is the one of the switch: the
    zero vector for "Vector2", "Vector3" and "Vector4", the identity matrix for
    "Matrix", white for "Color3", (1, 1, 1, 1) for "Color4"; any other type
    name leaves the default undefined. *)
Theorem addValueNode_default (type : string) (column : Z) (st : Editor) :
  (exists n p st',
     addValueNode prepare type column None st = (Normal n, st')
     /\ ports st' !! p
        = Some {| port_name := type; position := "output"; port_connection := None;
                  defaultValue := literalDefault type; port_node := n |}
     /\ node_ports <$> nodes st' !! n = Some [p]
     /\ node_class <$> nodes st' !! n = Some InputNodeModel)
  /\ literalDefault "Vector2" = Vector2 0 0
  /\ literalDefault "Vector3" = Vector3 0 0 0
  /\ literalDefault "Vector4" = Vector4 0 0 0 0
  /\ literalDefault "Matrix" = Matrix [1; 0; 0; 0;  0; 1; 0; 0;  0; 0; 1; 0;  0; 0; 0; 1]
  /\ literalDefault "Color3" = Color3 1 1 1
  /\ literalDefault "Color4" = Color4 1 1 1 1
  /\ (type ∈ ["Vector2"; "Vector3"; "Vector4"; "Matrix"; "Color3"; "Color4"]
      \/ literalDefault type = JsUndefined).
Proof.
  split_and!; try reflexivity.
  - unfold addValueNode, createNodeFromObject, placeNode. simpl.
    do 3 eexists. split; [reflexivity|]. simpl.
    rewrite lookup_alter_eq, lookup_insert_eq. simpl.
    split; [done|].
    by rewrite lookup_alter_eq, lookup_insert_eq.
  - unfold literalDefault.
    repeat match goal with
           | |- context [String.eqb type ?s] =>
               destruct (String.eqb_spec type s) as [->|_];
               [left; rewrite !elem_of_cons; auto 10|]
           end.
    by right.
Qed.

End ConstructionFacts.


(** ** The rebuild boundary *)

Section RebuildFacts.
Import GraphEditor.

Variable nodeMaterial_build :
  NodeMaterial -> gmap nat NodeMaterialConnectionPoint -> NodeMaterial * option JsValue.

(** A rebuild leaves the diagram and the connection points alone. *)
Lemma buildMaterial_frame (st : Editor) :
  cps (buildMaterial nodeMaterial_build st) = cps st
  /\ ports (buildMaterial nodeMaterial_build st) = ports st
  /\ nodes (buildMaterial nodeMaterial_build st) = nodes st.
Proof.
  unfold buildMaterial. destruct (nodeMaterial st) as [m|]; [|done].
  destruct (nodeMaterial_build m (cps st)) as [m' [err|]]; done.
Qed.

Lemma buildMaterialIfAny_frame (st : Editor) :
  cps (buildMaterialIfAny nodeMaterial_build st) = cps st
  /\ ports (buildMaterialIfAny nodeMaterial_build st) = ports st
  /\ nodes (buildMaterialIfAny nodeMaterial_build st) = nodes st.
Proof.
  unfold buildMaterialIfAny. destruct (nodeMaterial st); [|done].
  apply buildMaterial_frame.
Qed.

(** C5, as the code has it.  With a node material, [buildMaterial] calls its
    [build] exactly once and emits exactly one log entry: the thrown value
    with [isError = true] when [build] throws, the success message with
    [isError = false] otherwise; nothing is thrown further and nothing is
    tried again.  Without a node material it returns at once: no call, no log
    entry. *)
Theorem buildMaterial_once_if_material (st : Editor) :
  match nodeMaterial st with
  | None => buildMaterial nodeMaterial_build st = st
  | Some m =>
      calls (buildMaterial nodeMaterial_build st) = calls st ++ [CallBuild true]
      /\ logged (buildMaterial nodeMaterial_build st)
         = logged st ++
           [match (nodeMaterial_build m (cps st)).2 with
            | Some err => {| message := err; isError := true |}
            | None => {| message := JsString "Node material build successful";
                         isError := false |}
            end]
  end.
Proof.
  unfold buildMaterial. destruct (nodeMaterial st) as [m|]; [|done].
  destruct (nodeMaterial_build m (cps st)) as [m' [err|]]; done.
Qed.

End RebuildFacts.

(** A build that throws "boom" is called once and logged as an error. *)
Example buildMaterial_logs_failure :
  let st := GraphEditor.boundInputEditor JsUndefined in
  let st' := GraphEditor.buildMaterial (GraphEditor.build_throws (JsString "boom")) st in
  GraphEditor.calls st' = [GraphEditor.CallBuild true]
  /\ GraphEditor.logged st'
     = [{| GraphEditor.message := JsString "boom"; GraphEditor.isError := true |}].
Proof. split; reflexivity. Qed.

(** C5, as the spec has it, fails: on an editor without a node material (and
    with a [build] that would succeed), [buildMaterial] makes no call of
    [build] and emits no log entry. *)
Lemma buildMaterial_without_material :
  let st := GraphEditor.initialEditor None in
  GraphEditor.calls (GraphEditor.buildMaterial GraphEditor.build_ok st) = []
  /\ GraphEditor.logged (GraphEditor.buildMaterial GraphEditor.build_ok st) = [].
Proof. split; reflexivity. Qed.

(** ** Links *)

Section LinkFacts.
Import GraphEditor.

Variables connectTo disconnectFrom :
  nat -> nat -> gmap nat NodeMaterialConnectionPoint -> gmap nat NodeMaterialConnectionPoint.
Variable nodeMaterial_build :
  NodeMaterial -> gmap nat NodeMaterialConnectionPoint -> NodeMaterial * option JsValue.

(** The two ports of a resolved pair are different objects. *)
Lemma SortInputOutput_distinct (st : Editor) (a b : option nat) (l : SortedLink) :
  SortInputOutput st a b = Some l -> input l ≠ output l.
Proof.
  intros (pi & po & Hi & Hpi & Ho & Hpo)%SortInputOutput_Some Heq.
  rewrite Heq in Hi. congruence.
Qed.

(** C8.  When the two ports of a link do not resolve to an input and an
    output, [targetPortChanged] leaves the whole state as it is, and the
    removal of the link only sends the selection-cleared notification: no call
    reaches the material or a connection point, no value or port changes, no
    log entry is emitted. *)
Theorem invalid_orientation_dropped (l : LinkModel) (st : Editor) :
  SortInputOutput st (sourcePort l) (targetPort l) = None ->
  targetPortChanged connectTo nodeMaterial_build l st = st
  /\ linksUpdated disconnectFrom {| le_isCreated := false; le_link := l |} st
     = notifySelectionCleared st
  /\ (let st' := linksUpdated disconnectFrom {| le_isCreated := false; le_link := l |} st in
      cps st' = cps st /\ ports st' = ports st /\ nodes st' = nodes st
      /\ nodeMaterial st' = nodeMaterial st /\ calls st' = calls st
      /\ logged st' = logged st).
Proof.
  intros Hs.
  assert (linksUpdated disconnectFrom {| le_isCreated := false; le_link := l |} st
          = notifySelectionCleared st) as Hl.
  { unfold linksUpdated. simpl.
    rewrite (SortInputOutput_ports st (notifySelectionCleared st)) by done.
    by rewrite Hs. }
  split_and!.
  - unfold targetPortChanged. by rewrite Hs.
  - done.
  - simpl. by rewrite Hl.
Qed.

(** C3.  A link between an input port bound to the connection point [ic] and
    an output port without connection: [targetPortChanged] binds the output
    port to [ic] and keeps its name, stores [ic] on the node that owns the
    output port, and writes the default value of the output port into the
    value of [ic] (the zero vector when the port carries the default of
    "Vector3"); the input port is as before and no [connectTo] is called. *)
Theorem targetPortChanged_adopts
    (l : LinkModel) (st : Editor) (i o ic : nat)
    (pi po : DefaultPortModel) (cx : NodeMaterialConnectionPoint) (nd : DefaultNodeModel) :
  SortInputOutput st (sourcePort l) (targetPort l) = Some {| input := i; output := o |} ->
  ports st !! i = Some pi -> port_connection pi = Some ic ->
  ports st !! o = Some po -> port_connection po = None ->
  cps st !! ic = Some cx ->
  nodes st !! port_node po = Some nd ->
  let st' := targetPortChanged connectTo nodeMaterial_build l st in
  ports st' !! o
  = Some {| port_name := port_name po; position := position po;
            port_connection := Some ic; defaultValue := defaultValue po;
            port_node := port_node po |}
  /\ nodes st' !! port_node po = Some (set_node_connection (Some ic) nd)
  /\ cps st' !! ic = Some {| cp_name := cp_name cx; value := defaultValue po |}
  /\ (defaultValue po = literalDefault "Vector3" -> cpValue st' ic = Vector3 0 0 0)
  /\ ports st' !! i = Some pi
  /\ calls st' = calls st ++ match nodeMaterial st with
                             | Some _ => [CallBuild true]
                             | None => []
                             end.
Proof.
  intros Hs Hi Hic Ho Hoc Hcx Hnd st'.
  pose proof (SortInputOutput_distinct _ _ _ _ Hs) as Hne. simpl in Hne.
  subst st'. unfold targetPortChanged. rewrite Hs. simpl.
  unfold portConnection. rewrite Ho, Hi. simpl. rewrite Hoc, Hic.
  match goal with |- context [buildMaterialIfAny _ ?s] => set (st1 := s) end.
  destruct (buildMaterialIfAny_frame nodeMaterial_build st1) as (Hc & Hp & Hn).
  unfold cpValue. rewrite Hc, Hp, Hn.
  subst st1. simpl. rewrite !lookup_alter_eq, Ho. simpl.
  unfold portName, portDefaultValue. simpl.
  rewrite !lookup_alter_eq, Ho, Hcx, Hnd. simpl.
  rewrite !lookup_alter_ne, Hi by done.
  split_and!; try done.
  unfold buildMaterialIfAny. simpl.
  destruct (nodeMaterial st) as [m|] eqn:Hm; simpl; [|by rewrite app_nil_r].
  unfold buildMaterial. simpl. rewrite Hm.
  by destruct (nodeMaterial_build _ _) as [m' [err|]].
Qed.

(** C4, as the code has it.  Removal of a link whose ports resolve, with the
    input port bound to [ic].  The selection-cleared notification is sent.  When the output port
    is bound to [oc]: [oc.disconnectFrom(ic)] is the one call, and both ports
    are then synchronised again with their connection points (binding kept,
    name read from the point after the call).  When the output port is not
    bound: no call; a value of [ic] that passes the test [if (value)], as
    every vector, matrix and colour does, is replaced by null, any other
    value stays. *)
Theorem linksUpdated_removed
    (l : LinkModel) (st : Editor) (i o ic : nat) (pi po : DefaultPortModel) :
  SortInputOutput st (sourcePort l) (targetPort l) = Some {| input := i; output := o |} ->
  ports st !! i = Some pi -> port_connection pi = Some ic ->
  ports st !! o = Some po ->
  let st' := linksUpdated disconnectFrom {| le_isCreated := false; le_link := l |} st in
  selections st' = S (selections st)
  /\ match port_connection po with
     | Some oc =>
         calls st' = calls st ++ [CallDisconnectFrom oc ic]
         /\ cps st' = disconnectFrom oc ic (cps st)
         /\ ports st' !! i
            = Some {| port_name := cpName st' ic; position := position pi;
                      port_connection := Some ic; defaultValue := defaultValue pi;
                      port_node := port_node pi |}
         /\ ports st' !! o
            = Some {| port_name := cpName st' oc; position := position po;
                      port_connection := Some oc; defaultValue := defaultValue po;
                      port_node := port_node po |}
     | None =>
         calls st' = calls st
         /\ ports st' = ports st
         /\ cps st' = (if ToBoolean (cpValue st ic)
                       then alter (set_value JsNull) ic (cps st)
                       else cps st)
         /\ cpValue st' ic = (if ToBoolean (cpValue st ic) then JsNull else cpValue st ic)
         /\ (isObject (cpValue st ic) = true -> cpValue st' ic = JsNull)
     end.
Proof.
  intros Hs Hi Hic Ho st'.
  pose proof (SortInputOutput_distinct _ _ _ _ Hs) as Hne. simpl in Hne.
  subst st'. unfold linksUpdated. simpl.
  rewrite (SortInputOutput_ports st (notifySelectionCleared st)) by done.
  rewrite Hs. simpl. unfold portConnection. simpl. rewrite Hi, Ho. simpl. rewrite Hic.
  destruct (port_connection po) as [oc|] eqn:Hoc; simpl.
  - assert (o ≠ i) as Hne' by congruence.
    unfold cpName. simpl. split_and!; try done.
    + rewrite lookup_alter_ne by done. rewrite lookup_alter_eq, Hi. reflexivity.
    + rewrite lookup_alter_eq. rewrite lookup_alter_ne by done. rewrite Ho. reflexivity.
  - unfold cpValue. simpl.
    destruct (cps st !! ic) as [cx|] eqn:Hcx; simpl; [|by rewrite Hcx].
    destruct (ToBoolean (value cx)) eqn:Hv; simpl.
    + by rewrite lookup_alter_eq, Hcx.
    + rewrite Hcx. simpl. split_and!; try done.
      intros Hobj. by destruct (value cx).
Qed.

End LinkFacts.

(** ** The output roots *)

Section RegistrarFacts.
Import GraphEditor.




(** The roots after a registration, up to the order of the two lists. *)
Lemma addOutputNode_outputs (b : NodeMaterialBlock) (m : NodeMaterial) :
  b ∉ outputNodes m -> outputNodes (addOutputNode b m) ≡ₚ b :: outputNodes m.
Proof.
  intros Hb. unfold addOutputNode. rewrite decide_False by done.
  unfold outputNodes. destruct (target b); simpl.
  - rewrite <- app_assoc. simpl. by rewrite <- Permutation_middle.
  - rewrite app_assoc. by rewrite <- Permutation_cons_append.
Qed.


(** Registering a block twice is registering it once. *)
Lemma addOutputNode_idempotent (b : NodeMaterialBlock) (m : NodeMaterial) :
  addOutputNode b (addOutputNode b m) = addOutputNode b m.
Proof.
  destruct (decide (b ∈ outputNodes m)) as [Hin|Hout].
  - assert (addOutputNode b m = m) as Hid
      by (unfold addOutputNode; by rewrite decide_True).
    by rewrite !Hid.
  - unfold addOutputNode at 1. rewrite decide_True; [done|].
    rewrite addOutputNode_outputs by done. left.
Qed.


Lemma removeOutputNode_NoDup (b : NodeMaterialBlock) (m : NodeMaterial) :
  NoDup (outputNodes m) -> NoDup (outputNodes (removeOutputNode b m)).
Proof.
  unfold removeOutputNode, outputNodes. simpl. rewrite <- filter_app.
  apply NoDup_filter.
Qed.

Variable prepare : NodeCreationOptions -> nat -> list string -> Editor -> Editor.


End RegistrarFacts.

(** ** The theorems at work *)

(** C3 on a literal Vector3 node: its output port [4] is linked to the input
    port [3], bound to the point [7]; the port [4] then references [7] under
    its old name, the node [1] records [7], and [7] holds the zero vector. *)
Lemma targetPortChanged_adopts_Vector3 :
  let st := GraphEditor.literalEditor JsUndefined in
  let l := {| GraphEditor.sourcePort := Some 4%nat; GraphEditor.targetPort := Some 3%nat |} in
  let st' := GraphEditor.targetPortChanged GraphEditor.no_effect GraphEditor.build_ok l st in
  GraphEditor.SortInputOutput st (Some 4%nat) (Some 3%nat)
  = Some {| GraphEditor.input := 3%nat; GraphEditor.output := 4%nat |}
  /\ GraphEditor.ports st' !! 4%nat
     = Some {| GraphEditor.port_name := "Vector3"; GraphEditor.position := "output";
               GraphEditor.port_connection := Some 7%nat;
               GraphEditor.defaultValue := Vector3 0 0 0; GraphEditor.port_node := 1%nat |}
  /\ GraphEditor.node_connection <$> GraphEditor.nodes st' !! 1%nat = Some (Some 7%nat)
  /\ GraphEditor.cps st' !! 7%nat
     = Some {| GraphEditor.cp_name := "uv"; GraphEditor.value := Vector3 0 0 0 |}.
Proof.
  intros st l st'.
  split; [vm_compute; reflexivity|].
  destruct (targetPortChanged_adopts GraphEditor.no_effect GraphEditor.build_ok l st
              3%nat 4%nat 7%nat
              {| GraphEditor.port_name := "uv"; GraphEditor.position := "input";
                 GraphEditor.port_connection := Some 7%nat;
                 GraphEditor.defaultValue := JsUndefined; GraphEditor.port_node := 0%nat |}
              {| GraphEditor.port_name := "Vector3"; GraphEditor.position := "output";
                 GraphEditor.port_connection := None;
                 GraphEditor.defaultValue := Vector3 0 0 0; GraphEditor.port_node := 1%nat |}
              {| GraphEditor.cp_name := "uv"; GraphEditor.value := JsUndefined |}
              {| GraphEditor.node_class := GraphEditor.InputNodeModel;
                 GraphEditor.node_x := 1600; GraphEditor.node_y := 210;
                 GraphEditor.block := None; GraphEditor.node_connection := None;
                 GraphEditor.node_ports := [4%nat] |})
    as (Hport & Hnode & Hcp & _ & _); try (vm_compute; reflexivity).
  split; [exact Hport|]. split; [|exact Hcp].
  subst st'. simpl GraphEditor.port_node in Hnode. rewrite Hnode. reflexivity.
Defined.

(** C4 on the same diagram, with the point [7] holding a vector and the
    output port [4] unbound: the removal of the link sets the value of [7] to
    null and calls nothing. *)
Lemma linksUpdated_removed_clears_value :
  let st := GraphEditor.literalEditor (Vector3 1 2 3) in
  let l := {| GraphEditor.sourcePort := Some 4%nat; GraphEditor.targetPort := Some 3%nat |} in
  let st' := GraphEditor.linksUpdated GraphEditor.no_effect
               {| GraphEditor.le_isCreated := false; GraphEditor.le_link := l |} st in
  GraphEditor.SortInputOutput st (Some 4%nat) (Some 3%nat)
  = Some {| GraphEditor.input := 3%nat; GraphEditor.output := 4%nat |}
  /\ GraphEditor.cpValue st 7%nat = Vector3 1 2 3
  /\ GraphEditor.cpValue st' 7%nat = JsNull
  /\ GraphEditor.calls st' = [].
Proof.
  intros st l st'.
  split; [vm_compute; reflexivity|]. split; [vm_compute; reflexivity|].
  destruct (linksUpdated_removed GraphEditor.no_effect l st 3%nat 4%nat 7%nat
              {| GraphEditor.port_name := "uv"; GraphEditor.position := "input";
                 GraphEditor.port_connection := Some 7%nat;
                 GraphEditor.defaultValue := JsUndefined; GraphEditor.port_node := 0%nat |}
              {| GraphEditor.port_name := "Vector3"; GraphEditor.position := "output";
                 GraphEditor.port_connection := None;
                 GraphEditor.defaultValue := Vector3 0 0 0; GraphEditor.port_node := 1%nat |})
    as (_ & Hcalls & _ & _ & Hval & _); try (vm_compute; reflexivity).
  split; [exact Hval | exact Hcalls].
Defined.

(** C8 on two literal nodes: a link between their two output ports, [4] and
    [5], does not resolve, and nothing happens when its target is set. *)
Lemma invalid_orientation_two_outputs :
  let st := (GraphEditor.addValueNode GraphEditor.prepare_leaf "Vector2" 0 None
               (GraphEditor.literalEditor JsUndefined)).2 in
  let l := {| GraphEditor.sourcePort := Some 4%nat; GraphEditor.targetPort := Some 5%nat |} in
  GraphEditor.SortInputOutput st (Some 4%nat) (Some 5%nat) = None
  /\ GraphEditor.targetPortChanged GraphEditor.no_effect GraphEditor.build_ok l st = st
  /\ GraphEditor.logged
       (GraphEditor.linksUpdated GraphEditor.no_effect
          {| GraphEditor.le_isCreated := false; GraphEditor.le_link := l |} st) = [].
Proof.
  intros st l.
  split; [vm_compute; reflexivity|].
  destruct (invalid_orientation_dropped GraphEditor.no_effect GraphEditor.no_effect
              GraphEditor.build_ok l st)
    as (Ht & _ & _ & _ & _ & _ & _ & Hlog); [vm_compute; reflexivity|].
  split; [exact Ht | exact Hlog].
Defined.


(** C4, as the spec has it, fails: the point [7] holds the number 0, a
    literal value that is neither null nor undefined, and only the input port
    [3] of the link is bound; the removal of the link calls nothing, but the
    value is still 0 afterwards, not null. *)
Lemma linksUpdated_removed_keeps_zero :
  let st := GraphEditor.literalEditor (JsNumber 0) in
  let l := {| GraphEditor.sourcePort := Some 4%nat; GraphEditor.targetPort := Some 3%nat |} in
  let st' := GraphEditor.linksUpdated GraphEditor.no_effect
               {| GraphEditor.le_isCreated := false; GraphEditor.le_link := l |} st in
  GraphEditor.SortInputOutput st (Some 4%nat) (Some 3%nat)
  = Some {| GraphEditor.input := 3%nat; GraphEditor.output := 4%nat |}
  /\ GraphEditor.portConnection st 3%nat = Some 7%nat
  /\ GraphEditor.portConnection st 4%nat = None
  /\ GraphEditor.cpValue st 7%nat = JsNumber 0
  /\ GraphEditor.cpValue st' 7%nat = JsNumber 0
  /\ GraphEditor.cpValue st' 7%nat ≠ JsNull
  /\ GraphEditor.calls st' = [].
Proof. vm_compute. split_and!; done. Qed.


(** After the adoption of C3 the output port is bound as well, so the removal
    of that same link takes the branch of two bound ports: the point [7] is
    asked to disconnect from itself, its value stays, and the two ports are
    named after it. *)
Example unlink_after_adoption :
  let l := {| GraphEditor.sourcePort := Some 4%nat; GraphEditor.targetPort := Some 3%nat |} in
  let st1 := GraphEditor.targetPortChanged GraphEditor.no_effect GraphEditor.build_ok l
               (GraphEditor.literalEditor JsUndefined) in
  let st2 := GraphEditor.linksUpdated GraphEditor.no_effect
               {| GraphEditor.le_isCreated := false; GraphEditor.le_link := l |} st1 in
  GraphEditor.calls st2
  = [GraphEditor.CallBuild true; GraphEditor.CallDisconnectFrom 7%nat 7%nat]
  /\ GraphEditor.cpValue st2 7%nat = Vector3 0 0 0
  /\ GraphEditor.portName st2 4%nat = "uv".
Proof. vm_compute. done. Qed.

(** * Further properties of the code *)

(** ** Which names the hub raises, and in which order *)

Section HubOrderFacts.
Import InputHub.

Context {E : Type} (name : E -> string) (fires : E -> bool).

(** A name is notified when it was already, or when an event with that name
    fires. *)
Lemma raise_notified_elem (events : list E) :
  forall raisedEvents notified,
    raisedEvents = notified ->
    forall x,
      x ∈ (raise name fires events raisedEvents notified).2
      <-> x ∈ notified \/ exists e, e ∈ events /\ fires e = true /\ name e = x.
Proof.
  induction events as [|e events IH]; intros raisedEvents notified Heq x; simpl.
  - split; [by left|]. intros [?|(e & He & _)]; [done|].
    by apply not_elem_of_nil in He.
  - destruct (fires e) eqn:Hf.
    + destruct (indexOf raisedEvents (name e) =? -1) eqn:Hidx; simpl.
      * rewrite IH by (by rewrite Heq). rewrite elem_of_app, list_elem_of_singleton.
        split.
        -- intros [[?| ->]|(e' & He' & Hf' & Hn)]; [by left| |].
           ++ right. exists e. split_and!; [left|done|done].
           ++ right. exists e'. split_and!; [by right|done|done].
        -- intros [?|(e' & He' & Hf' & Hn)]; [by left; left|].
           apply elem_of_cons in He' as [-> |He']; [by left; right|].
           right. by exists e'.
      * rewrite IH by done. split.
        -- intros [?|(e' & He' & Hf' & Hn)]; [by left|].
           right. exists e'. split_and!; [by right|done|done].
        -- intros [?|(e' & He' & Hf' & Hn)]; [by left|].
           apply elem_of_cons in He' as [-> |He']; [|right; by exists e'].
           left. subst notified x.
           apply Z.eqb_neq in Hidx.
           destruct (decide (name e ∈ raisedEvents)) as [|Hout]; [done|].
           by apply indexOf_absent in Hout.
    + rewrite IH by done. split.
      * intros [?|(e' & He' & Hf' & Hn)]; [by left|].
        right. exists e'. split_and!; [by right|done|done].
      * intros [?|(e' & He' & Hf' & Hn)]; [by left|].
        apply elem_of_cons in He' as [-> |He']; [congruence|].
        right. by exists e'.
Qed.

(** What is notified comes after what was, in the order of the events that
    fire. *)
Lemma raise_notified_sublist (events : list E) :
  forall raisedEvents notified,
    exists s,
      (raise name fires events raisedEvents notified).2 = notified ++ s
      /\ s `sublist_of` (name <$> filter (fun e => Is_true (fires e)) events).
Proof.
  induction events as [|e events IH]; intros raisedEvents notified; simpl.
  - exists []. by rewrite app_nil_r.
  - destruct (fires e) eqn:Hf.
    + rewrite filter_cons_True by (rewrite Hf; exact I). simpl.
      destruct (indexOf raisedEvents (name e) =? -1); simpl.
      * destruct (IH (raisedEvents ++ [name e]) (notified ++ [name e])) as (s & -> & Hs).
        exists (name e :: s). rewrite <- app_assoc. split; [done|].
        by apply sublist_skip.
      * destruct (IH raisedEvents notified) as (s & -> & Hs).
        exists s. split; [done|]. by apply sublist_cons.
    + rewrite filter_cons_False by (rewrite Hf; exact id).
      apply IH.
Qed.

(** The loop only looks at [fires] on the registered events. *)
Lemma raise_ext (fires' : E -> bool) (events : list E) :
  (forall e, e ∈ events -> fires e = fires' e) ->
  forall raisedEvents notified,
    raise name fires events raisedEvents notified
    = raise name fires' events raisedEvents notified.
Proof.
  induction events as [|e events IH]; intros Hext raisedEvents notified; simpl; [done|].
  rewrite <- (Hext e) by left.
  assert (forall e', e' ∈ events -> fires e' = fires' e') as Hext'
    by (intros e' He'; apply Hext; by right).
  destruct (fires e); [|by apply IH].
  destruct (negb _); by apply IH.
Qed.

Lemma filter_fires_ext (fires' : E -> bool) (events : list E) :
  (forall e, e ∈ events -> fires e = fires' e) ->
  filter (fun e => Is_true (fires e)) events
  = filter (fun e => Is_true (fires' e)) events.
Proof.
  induction events as [|e events IH]; intros Hext; [done|].
  assert (fires e = fires' e) as He by (apply Hext; left).
  assert (filter (fun e => Is_true (fires e)) events
          = filter (fun e => Is_true (fires' e)) events) as Hrec
    by (apply IH; intros e' He'; apply Hext; by right).
  destruct (fires e) eqn:Hf.
  - rewrite !filter_cons_True by (rewrite <- ?He, ?Hf; exact I). by rewrite Hrec.
  - rewrite !filter_cons_False by (rewrite <- ?He, ?Hf; exact id). done.
Qed.

End HubOrderFacts.

(** An element of a list without repetition occurs once. *)
Lemma count_none {A} `{EqDecision A} (x : A) (l : list A) :
  x ∉ l -> length (filter (fun y => y = x) l) = 0%nat.
Proof.
  induction l as [|y l IH]; [done|].
  rewrite not_elem_of_cons. intros [Hne Hl].
  rewrite filter_cons_False by congruence. by apply IH.
Qed.

Lemma count_once {A} `{EqDecision A} (x : A) (l : list A) :
  NoDup l -> x ∈ l -> length (filter (fun y => y = x) l) = 1%nat.
Proof.
  induction 1 as [|y l Hy Hnd IH]; [by intros ?%not_elem_of_nil|].
  rewrite elem_of_cons. intros [-> |Hx].
  - rewrite filter_cons_True by done. simpl. by rewrite count_none.
  - rewrite filter_cons_False by (intros ->; done). by apply IH.
Qed.

Section HubExactOrder.
Import InputHub HubEvents.

Context {E : Type} (name : E -> string) (fires : E -> bool).

(** The loop appends, to what was notified, the names of the events that
    fire, each where it occurs first, except those raised before. *)
Lemma raise_firstOccurrences (events : list E) :
  forall raisedEvents notified,
    (raise name fires events raisedEvents notified).2
    = notified
      ++ filter (fun y => y ∉ raisedEvents)
           (firstOccurrences (name <$> filter (fun e => Is_true (fires e)) events)).
Proof.
  induction events as [|e events IH]; intros raisedEvents notified; simpl.
  - by rewrite app_nil_r.
  - destruct (fires e) eqn:Hf.
    + rewrite filter_cons_True by (rewrite Hf; exact I). simpl.
      destruct (indexOf raisedEvents (name e) =? -1) eqn:Hidx; simpl.
      * apply Z.eqb_eq, indexOf_absent in Hidx.
        rewrite IH, filter_cons_True by done.
        rewrite <- app_assoc. simpl. do 2 f_equal.
        rewrite list_filter_filter. apply list_filter_iff.
        intros y. rewrite elem_of_app, list_elem_of_singleton. tauto.
      * apply Z.eqb_neq in Hidx.
        assert (name e ∈ raisedEvents) as Hin.
        { destruct (decide (name e ∈ raisedEvents)) as [|Hout]; [done|].
          by apply indexOf_absent in Hout. }
        rewrite IH, filter_cons_False by (intros Hn; by apply Hn).
        f_equal. symmetry. apply list_filter_filter_l.
        intros y Hy ->. done.
    + rewrite filter_cons_False by (rewrite Hf; exact id). apply IH.
Qed.

Lemma raise_fresh_firstOccurrences (events : list E) :
  (raise name fires events [] []).2
  = firstOccurrences (name <$> filter (fun e => Is_true (fires e)) events).
Proof.
  rewrite raise_firstOccurrences. simpl.
  induction (firstOccurrences _) as [|y l IHl]; [done|].
  rewrite filter_cons_True by apply not_elem_of_nil. by rewrite IHl.
Qed.

End HubExactOrder.

(** The first name of a list is the first name kept, and a repeated name is
    kept at its first place only. *)
Example firstOccurrences_a_b_a :
  HubEvents.firstOccurrences ["a"; "b"; "a"; "c"; "b"] = ["a"; "b"; "c"].
Proof. reflexivity. Qed.

(** X1.  The pointer observer notifies the names of the registered mouse
    events that fire on the hardware event, each name once, at the place of
    the first registered event that fires with it: the notified list is the
    list of the names of the firing events, in registration order, without
    its repetitions.  Hence a name is notified exactly when an event with
    that name fires. *)
Theorem pointer_notifies_firing_names
    (POINTERDOWN POINTERUP : Z) (h : InputHub.Hub) (evt : InputHub.PointerInfo) :
  InputHub.onPointer POINTERDOWN POINTERUP h evt
  = HubEvents.firstOccurrences
      (InputHub.me_name <$>
         filter (fun e => Is_true (InputHub.mouseFires POINTERDOWN POINTERUP h evt e))
           (InputHub._mouseHubEvents h))
  /\ (forall x,
        x ∈ InputHub.onPointer POINTERDOWN POINTERUP h evt
        <-> exists e, e ∈ InputHub._mouseHubEvents h
                      /\ InputHub.mouseFires POINTERDOWN POINTERUP h evt e = true
                      /\ InputHub.me_name e = x).
Proof.
  split.
  - apply raise_fresh_firstOccurrences.
  - intros x. unfold InputHub.onPointer.
    rewrite raise_notified_elem by done. split; [|by right].
    intros [Hx|?]; [|done]. by apply not_elem_of_nil in Hx.
Qed.

(** X2.  The keyboard observer of the revision with [_modifierStates]: a
    Shift, Ctrl or Alt key event notifies nothing, whatever is registered;
    any other key event leaves the hub as it is and notifies the names of the
    registered keyboard events that fire, each name once, at the place of the
    first registered event that fires with it (the list of the names of the
    firing events, in registration order, without its repetitions). *)
Theorem keyboard_notifies_firing_names
    (KEYDOWN KEYUP : Z) (h : InputHub.Hub) (evt : InputHub.KeyboardInfo) :
  if HubEvents.isModifierKey (InputHub.keyCode (InputHub.kb_event evt)) then
    (InputHub.onKeyboard KEYDOWN KEYUP h evt).2 = []
  else
    (InputHub.onKeyboard KEYDOWN KEYUP h evt).1 = h
    /\ (InputHub.onKeyboard KEYDOWN KEYUP h evt).2
       = HubEvents.firstOccurrences
           (InputHub.ke_name <$>
              filter (fun e => Is_true (InputHub.keyboardFires KEYDOWN KEYUP h evt e))
                (InputHub._keyboardHubEvents h))
    /\ (forall x,
          x ∈ (InputHub.onKeyboard KEYDOWN KEYUP h evt).2
          <-> exists e, e ∈ InputHub._keyboardHubEvents h
                        /\ InputHub.keyboardFires KEYDOWN KEYUP h evt e = true
                        /\ InputHub.ke_name e = x).
Proof.
  unfold HubEvents.isModifierKey, InputHub.onKeyboard.
  destruct (InputHub.keyCode (InputHub.kb_event evt) =? 16); [done|].
  destruct (InputHub.keyCode (InputHub.kb_event evt) =? 17); [done|].
  destruct (InputHub.keyCode (InputHub.kb_event evt) =? 18); [done|].
  simpl. split_and!; [done| |].
  - apply raise_fresh_firstOccurrences.
  - intros x. rewrite raise_notified_elem by done. split; [|by right].
    intros [Hx|?]; [|done]. by apply not_elem_of_nil in Hx.
Qed.

Section ModifierFacts.
Import InputHub HubEvents.

Variables KEYDOWN KEYUP : Z.

(** The flags after [trackModifier], for one of the three prefixes. *)
Lemma trackModifier_flags (prefix : string) (evt : KeyboardInfo) (h : Hub) :
  prefix ≠ prefix +:+ "Right" -> prefix ≠ prefix +:+ "Left" ->
  prefix +:+ "Right" ≠ prefix +:+ "Left" ->
  let h' := trackModifier KEYDOWN prefix evt h in
  let down := kb_type evt =? KEYDOWN in
  modifierState h' prefix = down
  /\ (if location (kb_event evt) =? 2
      then modifierState h' (prefix +:+ "Right") = down
           /\ modifierState h' (prefix +:+ "Left") = modifierState h (prefix +:+ "Left")
      else modifierState h' (prefix +:+ "Left") = down
           /\ modifierState h' (prefix +:+ "Right") = modifierState h (prefix +:+ "Right"))
  /\ (forall key,
        key ≠ prefix -> key ≠ prefix +:+ "Right" -> key ≠ prefix +:+ "Left" ->
        modifierState h' key = modifierState h key)
  /\ _keyboardHubEvents h' = _keyboardHubEvents h
  /\ _mouseHubEvents h' = _mouseHubEvents h.
Proof.
  intros Hr Hl Hrl h' down. subst h'. unfold trackModifier, modifierState.
  destruct (location (kb_event evt) =? 2); simpl.
  - split_and!; try done.
    + by rewrite lookup_insert_ne, lookup_insert_eq.
    + by rewrite lookup_insert_eq.
    + by rewrite !lookup_insert_ne.
    + intros key H1 H2 H3. by rewrite !lookup_insert_ne.
  - split_and!; try done.
    + by rewrite lookup_insert_ne, lookup_insert_eq.
    + by rewrite lookup_insert_eq.
    + by rewrite !lookup_insert_ne.
    + intros key H1 H2 H3. by rewrite !lookup_insert_ne.
Qed.

(** X3.  A Shift, Ctrl or Alt key event sets the flag of the modifier and the
    flag of the side that [location] names (2 is the right side) to "the key
    went down", keeps the flag of the other side and every flag of the other
    modifiers, and keeps the registered events; any other key leaves the hub
    untouched. *)
Theorem modifier_key_updates_flags (h : Hub) (evt : KeyboardInfo) :
  let h' := (onKeyboard KEYDOWN KEYUP h evt).1 in
  let down := kb_type evt =? KEYDOWN in
  match modifierPrefix (keyCode (kb_event evt)) with
  | Some prefix =>
      modifierState h' prefix = down
      /\ (if location (kb_event evt) =? 2
          then modifierState h' (prefix +:+ "Right") = down
               /\ modifierState h' (prefix +:+ "Left") = modifierState h (prefix +:+ "Left")
          else modifierState h' (prefix +:+ "Left") = down
               /\ modifierState h' (prefix +:+ "Right") = modifierState h (prefix +:+ "Right"))
      /\ (forall key,
            key ≠ prefix -> key ≠ prefix +:+ "Right" -> key ≠ prefix +:+ "Left" ->
            modifierState h' key = modifierState h key)
      /\ _keyboardHubEvents h' = _keyboardHubEvents h
      /\ _mouseHubEvents h' = _mouseHubEvents h
  | None => h' = h
  end.
Proof.
  intros h' down. subst h'. unfold modifierPrefix, onKeyboard.
  destruct (keyCode (kb_event evt) =? 16); [by apply trackModifier_flags|].
  destruct (keyCode (kb_event evt) =? 17); [by apply trackModifier_flags|].
  destruct (keyCode (kb_event evt) =? 18); [by apply trackModifier_flags|].
  done.
Qed.

(** X4.  After any event of a modifier key that is not a key down, no trigger
    that asks for this modifier passes [_checkModifier], whatever the flags of
    the two sides are: releasing one Shift key blocks the Shift triggers even
    while the other Shift key is still flagged as held. *)
Theorem modifier_release_blocks_triggers
    (h : Hub) (evt : KeyboardInfo) (prefix : string) (t : IInputHubEventTrigger) :
  modifierPrefix (keyCode (kb_event evt)) = Some prefix ->
  kb_type evt ≠ KEYDOWN ->
  let h' := (onKeyboard KEYDOWN KEYUP h evt).1 in
  _checkKeyModifier h' prefix t = false
  /\ (requiresModifier prefix t = true -> _checkModifier h' t = false).
Proof.
  intros Hp Hup h'.
  assert ((kb_type evt =? KEYDOWN) = false) as Hd by by apply Z.eqb_neq.
  assert (modifierState h' prefix = false) as Hoff.
  { subst h'. revert Hp. unfold modifierPrefix, onKeyboard.
    destruct (keyCode (kb_event evt) =? 16); simpl.
    { intros [= <-]. rewrite <- Hd. by apply trackModifier_flags. }
    destruct (keyCode (kb_event evt) =? 17); simpl.
    { intros [= <-]. rewrite <- Hd. by apply trackModifier_flags. }
    destruct (keyCode (kb_event evt) =? 18); simpl; [|done].
    intros [= <-]. rewrite <- Hd. by apply trackModifier_flags. }
  assert (_checkKeyModifier h' prefix t = false) as Hck
    by (unfold _checkKeyModifier; by rewrite Hoff).
  split; [done|].
  revert Hp Hck. unfold modifierPrefix, requiresModifier, _checkModifier.
  destruct (keyCode (kb_event evt) =? 16); simpl.
  { intros [= <-] Hck. simpl. intros ->. rewrite Hck. simpl.
    by destruct (truthy (altModifier t) && _). }
  destruct (keyCode (kb_event evt) =? 17); simpl.
  { intros [= <-] Hck. simpl. intros ->. rewrite Hck. simpl.
    destruct (truthy (altModifier t) && _); [done|].
    by destruct (truthy (shiftModifier t) && _). }
  destruct (keyCode (kb_event evt) =? 18); simpl; [|done].
  intros [= <-] Hck. simpl. intros ->. by rewrite Hck.
Qed.

End ModifierFacts.

Section RegistrationFacts.
Import InputHub HubEvents.

Variables KEYDOWN KEYUP : Z.

(** The events that [addEvent] makes of a list of triggers. *)
Lemma addEvent_lists (name : string) (triggers : list EventTrigger) :
  forall h,
    _keyboardHubEvents (addEvent name triggers h)
    = _keyboardHubEvents h
      ++ omap (fun t => match t with
                        | KeyboardTrigger k => Some {| ke_name := name; ke_trigger := k |}
                        | MouseTrigger _ => None
                        end) triggers
    /\ _mouseHubEvents (addEvent name triggers h)
       = _mouseHubEvents h
         ++ omap (fun t => match t with
                           | MouseTrigger m => Some {| me_name := name; me_trigger := m |}
                           | KeyboardTrigger _ => None
                           end) triggers
    /\ _modifierStates (addEvent name triggers h) = _modifierStates h.
Proof.
  induction triggers as [|t triggers IH]; intros h; simpl.
  - by rewrite !app_nil_r.
  - destruct (IH match t with
                 | KeyboardTrigger k => addKeyboardEvent name k h
                 | MouseTrigger m => addMouseEvent name m h
                 end) as (Hk & Hm & Hs).
    rewrite Hk, Hm, Hs. destruct t; simpl; by rewrite <- ?app_assoc.
Qed.

(** X5.  [addEvent] appends one event per trigger, under the given name and
    in the order of the list: the keyboard triggers to the keyboard events,
    the mouse triggers to the mouse events; what was registered before stays
    in front, and the modifier flags are not touched. *)
Theorem addEvent_appends (name : string) (triggers : list EventTrigger) (h : Hub) :
  _keyboardHubEvents (addEvent name triggers h)
  = _keyboardHubEvents h
    ++ omap (fun t => match t with
                      | KeyboardTrigger k => Some {| ke_name := name; ke_trigger := k |}
                      | MouseTrigger _ => None
                      end) triggers
  /\ _mouseHubEvents (addEvent name triggers h)
     = _mouseHubEvents h
       ++ omap (fun t => match t with
                         | MouseTrigger m => Some {| me_name := name; me_trigger := m |}
                         | KeyboardTrigger _ => None
                         end) triggers
  /\ _modifierStates (addEvent name triggers h) = _modifierStates h
  /\ (length (_keyboardHubEvents (addEvent name triggers h))
      + length (_mouseHubEvents (addEvent name triggers h))
      = length (_keyboardHubEvents h) + length (_mouseHubEvents h)
        + length triggers)%nat.
Proof.
  destruct (addEvent_lists name triggers h) as (Hk & Hm & Hs).
  split_and!; try done.
  rewrite Hk, Hm, !length_app.
  assert (forall l : list EventTrigger,
            (length (omap (fun t => match t with
                                    | KeyboardTrigger k =>
                                        Some {| ke_name := name; ke_trigger := k |}
                                    | MouseTrigger _ => None
                                    end) l)
             + length (omap (fun t => match t with
                                      | MouseTrigger m =>
                                          Some {| me_name := name; me_trigger := m |}
                                      | KeyboardTrigger _ => None
                                      end) l)
             = length l)%nat) as Hlen.
  { induction l as [|t l IH]; [done|]. destruct t; csimpl; lia. }
  specialize (Hlen triggers). lia.
Qed.

(** A plain trigger fires on the key down of its key. *)
Lemma plain_trigger_fires (h : Hub) (evt : KeyboardInfo) (name : string)
    (k : IInputHubKeyboardEventTrigger) :
  plainTrigger (kt_base k) = true ->
  kt_keyCode k = keyCode (kb_event evt) ->
  kb_type evt = KEYDOWN ->
  keyboardFires KEYDOWN KEYUP h evt {| ke_name := name; ke_trigger := k |} = true.
Proof.
  unfold plainTrigger, keyboardFires, phase, _checkModifier. simpl.
  intros Hplain -> ->.
  destruct (truthy (altModifier (kt_base k))); [done|].
  destruct (truthy (shiftModifier (kt_base k))); [done|].
  destruct (truthy (ctrlModifier (kt_base k))); [done|].
  destruct (truthy (released (kt_base k))); [done|].
  simpl. by rewrite !Z.eqb_refl.
Qed.

(** X6.  Register, then press: once [addEvent] has registered [name] with a
    keyboard trigger that asks for no modifier and is not a release trigger,
    the key down of the trigger's key (not Shift, Ctrl or Alt) notifies [name]
    exactly once, whatever else is registered and whatever the other triggers
    of the list are. *)
Theorem registered_key_raises_once
    (h : Hub) (name : string) (triggers : list EventTrigger)
    (k : IInputHubKeyboardEventTrigger) (evt : KeyboardInfo) :
  KeyboardTrigger k ∈ triggers ->
  plainTrigger (kt_base k) = true ->
  kt_keyCode k = keyCode (kb_event evt) ->
  kb_type evt = KEYDOWN ->
  isModifierKey (keyCode (kb_event evt)) = false ->
  length (filter (fun x => x = name)
            (onKeyboard KEYDOWN KEYUP (addEvent name triggers h) evt).2) = 1%nat.
Proof.
  intros Hin Hplain Hkey Hdown Hmod.
  set (h1 := addEvent name triggers h).
  assert ((onKeyboard KEYDOWN KEYUP h1 evt).2
          = (raise ke_name (keyboardFires KEYDOWN KEYUP h1 evt)
               (_keyboardHubEvents h1) [] []).2) as ->.
  { revert Hmod. unfold isModifierKey, onKeyboard.
    destruct (keyCode (kb_event evt) =? 16); [done|].
    destruct (keyCode (kb_event evt) =? 17); [done|].
    by destruct (keyCode (kb_event evt) =? 18). }
  apply count_once; [apply raise_fresh_NoDup|].
  apply raise_notified_elem; [done|]. right.
  exists {| ke_name := name; ke_trigger := k |}. split_and!; [|by apply plain_trigger_fires|done].
  subst h1. destruct (addEvent_lists name triggers h) as (-> & _ & _).
  apply elem_of_app. right. apply list_elem_of_omap.
  exists (KeyboardTrigger k). by split.
Qed.

(** Without [rightModifier], the keyboard-only revision and the first revision
    test an event in the same way. *)
Lemma keyboardFires'_first (h : Hub) (evt : KeyboardInfo) (e : KeyboardHubEvent) :
  rightModifier (kt_base (ke_trigger e)) = None ->
  keyboardFires' KEYDOWN KEYUP h evt e = keyboardFires0 KEYDOWN KEYUP evt e.
Proof.
  intros Hr. unfold keyboardFires', keyboardFires0, _checkKeyModifier', eventModifierKey.
  rewrite Hr. simpl.
  destruct (kt_keyCode (ke_trigger e) =? keyCode (kb_event evt)); [|done].
  destruct (phase _ _ _ _); [|done]. simpl.
  destruct (truthy (altModifier _)), (altKey _), (truthy (shiftModifier _)),
    (shiftKey _), (truthy (ctrlModifier _)), (ctrlKey _); done.
Qed.

(** X7.  The keyboard-only revision against the first revision, on a key that
    is not Shift, Ctrl or Alt and with no trigger that sets [rightModifier]:
    what it notifies is what the first revision notifies, without the
    repetitions, every name staying where the first revision notifies it
    first. *)
Theorem keyboard_revisions_agree (h : Hub) (evt : KeyboardInfo) :
  isModifierKey (keyCode (kb_event evt)) = false ->
  (forall e, e ∈ _keyboardHubEvents h -> rightModifier (kt_base (ke_trigger e)) = None) ->
  let later := (onKeyboard' KEYDOWN KEYUP h evt).2 in
  let first := onKeyboard0 KEYDOWN KEYUP h evt in
  later = firstOccurrences first
  /\ (forall x, x ∈ later <-> x ∈ first)
  /\ NoDup later.
Proof.
  intros Hmod Hr later first.
  assert (later = (raise ke_name (keyboardFires0 KEYDOWN KEYUP evt)
                     (_keyboardHubEvents h) [] []).2) as ->.
  { subst later. revert Hmod. unfold isModifierKey, onKeyboard'.
    destruct (keyCode (kb_event evt) =? 16); [done|].
    destruct (keyCode (kb_event evt) =? 17); [done|].
    destruct (keyCode (kb_event evt) =? 18); [done|].
    intros _. simpl. f_equal. apply raise_ext.
    intros e He. by apply keyboardFires'_first, Hr. }
  subst first. unfold onKeyboard0. split_and!.
  - apply raise_fresh_firstOccurrences.
  - intros x. rewrite raise_notified_elem by done.
    rewrite list_elem_of_fmap. split.
    + intros [Hx|(e & He & Hf & Hn)]; [by apply not_elem_of_nil in Hx|].
      exists e. split; [done|]. apply list_elem_of_filter. split; [|done].
      by rewrite Hf.
    + intros (e & -> & [Hf He]%list_elem_of_filter). right.
      exists e. split_and!; [done| |done]. by apply Is_true_eq_true.
  - apply raise_fresh_NoDup.
Qed.

End RegistrationFacts.

(** ** Links between bound and unbound ports *)

Section LinkPathFacts.
Import GraphEditor.

Variables connectTo disconnectFrom :
  nat -> nat -> gmap nat NodeMaterialConnectionPoint -> gmap nat NodeMaterialConnectionPoint.
Variable nodeMaterial_build :
  NodeMaterial -> gmap nat NodeMaterialConnectionPoint -> NodeMaterial * option JsValue.

(** An input port and an output port resolve, in either order. *)
Lemma SortInputOutput_intro (st : Editor) (i o : nat) (pi po : DefaultPortModel) :
  ports st !! i = Some pi -> position pi = "input" ->
  ports st !! o = Some po -> position po = "output" ->
  SortInputOutput st (Some i) (Some o) = Some {| input := i; output := o |}
  /\ SortInputOutput st (Some o) (Some i) = Some {| input := i; output := o |}.
Proof.
  intros Hi Hpi Ho Hpo. unfold SortInputOutput. by rewrite Hi, Ho, Hpi, Hpo.
Qed.

(** A resolved pair is the pair of arguments, in one of the two orders. *)
Lemma SortInputOutput_args (st : Editor) (a b : option nat) (l : SortedLink) :
  SortInputOutput st a b = Some l ->
  (a = Some (input l) /\ b = Some (output l))
  \/ (a = Some (output l) /\ b = Some (input l)).
Proof.
  unfold SortInputOutput.
  destruct a as [a|], b as [b|]; try done.
  destruct (ports st !! a), (ports st !! b); try done.
  destruct (_ && _); [intros [= <-]; by left|].
  destruct (_ && _); [intros [= <-]; by right|done].
Qed.

(** Orientation survives any change that keeps the directions of the two
    ports. *)
Lemma SortInputOutput_stable (st st' : Editor) (a b : option nat) (l : SortedLink) :
  SortInputOutput st a b = Some l ->
  position <$> ports st' !! input l = position <$> ports st !! input l ->
  position <$> ports st' !! output l = position <$> ports st !! output l ->
  SortInputOutput st' a b = Some l.
Proof.
  intros Hs Hi Ho.
  destruct (SortInputOutput_Some _ _ _ _ Hs) as (pi & po & Hpi & Hdi & Hpo & Hdo).
  rewrite Hpi in Hi. rewrite Hpo in Ho.
  destruct (ports st' !! input l) as [pi'|] eqn:Hpi'; [|done].
  destruct (ports st' !! output l) as [po'|] eqn:Hpo'; [|done].
  simpl in Hi, Ho. injection Hi as Hi. injection Ho as Ho.
  destruct (SortInputOutput_intro st' (input l) (output l) pi' po') as [H1 H2];
    try congruence.
  destruct l as [i o]. simpl in *.
  by destruct (SortInputOutput_args _ _ _ _ Hs) as [[-> ->]|[-> ->]].
Qed.

(** The calls and the log after [buildMaterialIfAny]. *)
Lemma buildMaterialIfAny_calls (st : Editor) :
  match nodeMaterial st with
  | Some _ =>
      calls (buildMaterialIfAny nodeMaterial_build st) = calls st ++ [CallBuild true]
      /\ length (logged (buildMaterialIfAny nodeMaterial_build st))
         = S (length (logged st))
  | None => buildMaterialIfAny nodeMaterial_build st = st
  end.
Proof.
  unfold buildMaterialIfAny, buildMaterial.
  destruct (nodeMaterial st) as [m|]; [|done].
  destruct (nodeMaterial_build m (cps st)) as [m' [err|]]; simpl;
    by rewrite length_app, Nat.add_1_r.
Qed.

(** X8.  A link between two bound ports: [targetPortChanged] calls
    [connectTo] on the output's connection point with the input's point, once
    and before the rebuild; the connection points are what that call leaves,
    and no port and no node changes. *)
Theorem targetPortChanged_connects
    (l : LinkModel) (st : Editor) (i o ic oc : nat) (pi po : DefaultPortModel) :
  SortInputOutput st (sourcePort l) (targetPort l) = Some {| input := i; output := o |} ->
  ports st !! i = Some pi -> port_connection pi = Some ic ->
  ports st !! o = Some po -> port_connection po = Some oc ->
  let st' := targetPortChanged connectTo nodeMaterial_build l st in
  cps st' = connectTo oc ic (cps st)
  /\ ports st' = ports st
  /\ nodes st' = nodes st
  /\ calls st' = calls st ++ CallConnectTo oc ic
                 :: match nodeMaterial st with
                    | Some _ => [CallBuild true]
                    | None => []
                    end.
Proof.
  intros Hs Hi Hic Ho Hoc st'. subst st'.
  unfold targetPortChanged. rewrite Hs. simpl.
  unfold portConnection. rewrite Hi, Ho. simpl. rewrite Hic, Hoc.
  match goal with |- context [buildMaterialIfAny _ ?s] => set (st1 := s) end.
  destruct (buildMaterialIfAny_frame nodeMaterial_build st1) as (-> & -> & ->).
  split_and!; try done.
  pose proof (buildMaterialIfAny_calls st1) as Hb.
  change (nodeMaterial st1) with (nodeMaterial st) in Hb.
  destruct (nodeMaterial st).
  - destruct Hb as [-> _]. subst st1. simpl. by rewrite <- app_assoc.
  - rewrite Hb. done.
Qed.

(** X9.  When the input port of a resolved pair has no connection, the link
    carries nothing, whether the output port is bound or not: setting the
    target only runs the rebuild, and the removal only sends the
    selection-cleared notification. *)
Theorem unbound_input_is_ignored
    (l : LinkModel) (st : Editor) (link : SortedLink) :
  SortInputOutput st (sourcePort l) (targetPort l) = Some link ->
  portConnection st (input link) = None ->
  targetPortChanged connectTo nodeMaterial_build l st
  = buildMaterialIfAny nodeMaterial_build st
  /\ linksUpdated disconnectFrom {| le_isCreated := false; le_link := l |} st
     = notifySelectionCleared st.
Proof.
  intros Hs Hi. split.
  - unfold targetPortChanged. rewrite Hs, Hi.
    by destruct (portConnection st (output link)).
  - unfold linksUpdated. simpl.
    rewrite (SortInputOutput_ports st (notifySelectionCleared st)) by done.
    rewrite Hs.
    change (portConnection (notifySelectionCleared st) (input link))
      with (portConnection st (input link)).
    by rewrite Hi.
Qed.

(** X10.  Every link that resolves triggers the rebuild exactly once, after
    at most one [connectTo]: with a node material the calls end with one
    [build] and the log grows by one entry; without one, no [build] and no
    log entry. *)
Theorem resolved_link_rebuilds_once
    (l : LinkModel) (st : Editor) (link : SortedLink) :
  SortInputOutput st (sourcePort l) (targetPort l) = Some link ->
  let st' := targetPortChanged connectTo nodeMaterial_build l st in
  exists pre,
    (pre = [] \/ exists oc ic, pre = [CallConnectTo oc ic])
    /\ match nodeMaterial st with
       | Some _ =>
           calls st' = calls st ++ pre ++ [CallBuild true]
           /\ length (logged st') = S (length (logged st))
       | None => calls st' = calls st ++ pre /\ logged st' = logged st
       end.
Proof.
  intros Hs st'. subst st'. unfold targetPortChanged. rewrite Hs.
  match goal with |- context [buildMaterialIfAny _ ?s] => set (st1 := s) end.
  assert (exists pre,
            (pre = [] \/ exists oc ic, pre = [CallConnectTo oc ic])
            /\ calls st1 = calls st ++ pre /\ logged st1 = logged st
            /\ nodeMaterial st1 = nodeMaterial st) as (pre & Hpre & Hc & Hl & Hm).
  { subst st1.
    destruct (portConnection st (output link)) as [oc|],
             (portConnection st (input link)) as [ic|]; simpl.
    - exists [CallConnectTo oc ic]. split_and!; eauto.
    - exists []. rewrite app_nil_r. split; [by left|done].
    - exists []. rewrite app_nil_r. split; [by left|].
      by destruct (_ !! output link).
    - exists []. rewrite app_nil_r. split; [by left|done]. }
  exists pre. split; [done|].
  pose proof (buildMaterialIfAny_calls st1) as Hb. rewrite Hm in Hb.
  destruct (nodeMaterial st).
  - destruct Hb as [-> ->]. by rewrite Hc, Hl, app_assoc.
  - by rewrite Hb.
Qed.

End LinkPathFacts.

(** ** A link made, then removed *)

Section LinkRoundFacts.
Import GraphEditor.

Variable prepare : NodeCreationOptions -> nat -> list string -> Editor -> Editor.
Variables connectTo disconnectFrom :
  nat -> nat -> gmap nat NodeMaterialConnectionPoint -> gmap nat NodeMaterialConnectionPoint.
Variable nodeMaterial_build :
  NodeMaterial -> gmap nat NodeMaterialConnectionPoint -> NodeMaterial * option JsValue.

(** The removal of a link between two bound ports, spelled out. *)
Lemma linksUpdated_bound (l : LinkModel) (st : Editor) (i o ic oc : nat) :
  SortInputOutput st (sourcePort l) (targetPort l) = Some {| input := i; output := o |} ->
  portConnection st i = Some ic -> portConnection st o = Some oc ->
  linksUpdated disconnectFrom {| le_isCreated := false; le_link := l |} st
  = syncWithNodeMaterialConnectionPoint o oc
      (syncWithNodeMaterialConnectionPoint i ic
         (record_call (CallDisconnectFrom oc ic)
            (with_cps (disconnectFrom oc ic) (notifySelectionCleared st)))).
Proof.
  intros Hs Hi Ho. unfold linksUpdated. simpl.
  rewrite (SortInputOutput_ports st (notifySelectionCleared st)) by done.
  rewrite Hs. simpl.
  change (portConnection (notifySelectionCleared st) i) with (portConnection st i).
  change (portConnection (notifySelectionCleared st) o) with (portConnection st o).
  by rewrite Hi, Ho.
Qed.

(** X11.  Connect, then remove, a link between two bound ports, with a
    [disconnectFrom] that undoes [connectTo] on these two points: the
    connection points are back as they were and the two ports keep their
    connections, but each port now carries the name of its connection point,
    whatever its name was before. *)
Theorem connect_then_remove
    (l : LinkModel) (st : Editor) (i o ic oc : nat) (pi po : DefaultPortModel) :
  SortInputOutput st (sourcePort l) (targetPort l) = Some {| input := i; output := o |} ->
  ports st !! i = Some pi -> port_connection pi = Some ic ->
  ports st !! o = Some po -> port_connection po = Some oc ->
  disconnectFrom oc ic (connectTo oc ic (cps st)) = cps st ->
  let st1 := targetPortChanged connectTo nodeMaterial_build l st in
  let st2 := linksUpdated disconnectFrom {| le_isCreated := false; le_link := l |} st1 in
  cps st2 = cps st
  /\ ports st2 !! i
     = Some {| port_name := cpName st ic; position := position pi;
               port_connection := Some ic; defaultValue := defaultValue pi;
               port_node := port_node pi |}
  /\ ports st2 !! o
     = Some {| port_name := cpName st oc; position := position po;
               port_connection := Some oc; defaultValue := defaultValue po;
               port_node := port_node po |}
  /\ nodes st2 = nodes st
  /\ calls st2 = calls st1 ++ [CallDisconnectFrom oc ic].
Proof.
  intros Hs Hi Hic Ho Hoc Hinv st1 st2.
  pose proof (SortInputOutput_distinct _ _ _ _ Hs) as Hne. simpl in Hne.
  assert (o ≠ i) as Hne' by congruence.
  assert (cps st1 = connectTo oc ic (cps st) /\ ports st1 = ports st
          /\ nodes st1 = nodes st) as (Hc1 & Hp1 & Hn1).
  { subst st1. unfold targetPortChanged. rewrite Hs. simpl.
    unfold portConnection. rewrite Hi, Ho. simpl. rewrite Hic, Hoc.
    match goal with |- context [buildMaterialIfAny _ ?s] => set (s1 := s) end.
    by destruct (buildMaterialIfAny_frame nodeMaterial_build s1) as (-> & -> & ->). }
  subst st2.
  rewrite (linksUpdated_bound l st1 i o ic oc).
  - simpl. unfold cpName. simpl. rewrite Hc1, Hinv, Hp1, Hn1.
    split_and!; try done.
    + rewrite lookup_alter_ne by done. rewrite lookup_alter_eq, Hi. reflexivity.
    + rewrite lookup_alter_eq. rewrite lookup_alter_ne by done. rewrite Ho. reflexivity.
  - by rewrite (SortInputOutput_ports st st1).
  - unfold portConnection. by rewrite Hp1, Hi.
  - unfold portConnection. by rewrite Hp1, Ho.
Qed.

(** The ports after an adoption. *)
Lemma adoption_ports
    (l : LinkModel) (st : Editor) (i o ic : nat) (pi po : DefaultPortModel) :
  SortInputOutput st (sourcePort l) (targetPort l) = Some {| input := i; output := o |} ->
  ports st !! i = Some pi -> port_connection pi = Some ic ->
  ports st !! o = Some po -> port_connection po = None ->
  let st1 := targetPortChanged connectTo nodeMaterial_build l st in
  ports st1 !! o = Some (set_port_connection (Some ic) po)
  /\ ports st1 !! i = Some pi.
Proof.
  intros Hs Hi Hic Ho Hoc st1.
  pose proof (SortInputOutput_distinct _ _ _ _ Hs) as Hne. simpl in Hne.
  assert (o ≠ i) as Hne' by congruence.
  subst st1. unfold targetPortChanged. rewrite Hs. simpl.
  unfold portConnection. rewrite Ho, Hi. simpl. rewrite Hoc, Hic.
  match goal with |- context [buildMaterialIfAny _ ?s] => set (s1 := s) end.
  destruct (buildMaterialIfAny_frame nodeMaterial_build s1) as (_ & -> & _).
  subst s1. simpl. rewrite !lookup_alter_eq, Ho. simpl.
  unfold portName. rewrite Ho. simpl.
  rewrite !lookup_alter_eq, Ho. simpl.
  rewrite !lookup_alter_ne, Hi by done.
  split; reflexivity.
Qed.

(** X12.  Adopt, then remove the same link.  The adoption has bound the
    output port to the input's connection point [ic], so the removal takes
    the path of two bound ports: [ic] is asked to disconnect from itself, the
    editor does not reset the value it injected, and the output port loses
    the name it had kept and takes the name of [ic]. *)
Theorem remove_after_adoption
    (l : LinkModel) (st : Editor) (i o ic : nat) (pi po : DefaultPortModel) :
  SortInputOutput st (sourcePort l) (targetPort l) = Some {| input := i; output := o |} ->
  ports st !! i = Some pi -> port_connection pi = Some ic ->
  ports st !! o = Some po -> port_connection po = None ->
  let st1 := targetPortChanged connectTo nodeMaterial_build l st in
  let st2 := linksUpdated disconnectFrom {| le_isCreated := false; le_link := l |} st1 in
  calls st2 = calls st1 ++ [CallDisconnectFrom ic ic]
  /\ cps st2 = disconnectFrom ic ic (cps st1)
  /\ ports st2 !! o
     = Some {| port_name := cpName st2 ic; position := position po;
               port_connection := Some ic; defaultValue := defaultValue po;
               port_node := port_node po |}.
Proof.
  intros Hs Hi Hic Ho Hoc st1 st2.
  pose proof (SortInputOutput_distinct _ _ _ _ Hs) as Hne. simpl in Hne.
  destruct (adoption_ports l st i o ic pi po Hs Hi Hic Ho Hoc) as [Ho1 Hi1].
  fold st1 in Ho1, Hi1.
  subst st2.
  rewrite (linksUpdated_bound l st1 i o ic ic).
  - simpl. unfold cpName. simpl. split_and!; try done.
    rewrite lookup_alter_eq. rewrite lookup_alter_ne by done. rewrite Ho1. reflexivity.
  - apply (SortInputOutput_stable st st1 _ _ _ Hs); simpl.
    + by rewrite Hi1, Hi.
    + by rewrite Ho1, Ho.
  - unfold portConnection. by rewrite Hi1.
  - unfold portConnection. by rewrite Ho1.
Qed.

(** X13.  [addValueNode] with a connection [c] (the node that stands for an
    unconnected input): the node records [c], but its output port has neither
    a connection nor a default value.  Removing the link between that port
    and an input port bound to [c] therefore calls nothing and replaces a
    value of [c] that passes the test [if (value)] by null. *)
Theorem value_node_of_connection
    (type : string) (column : Z) (c i : nat) (pi : DefaultPortModel) (st : Editor) :
  ports st !! i = Some pi -> position pi = "input" -> port_connection pi = Some c ->
  exists n p st',
    addValueNode prepare type column (Some c) st = (Normal n, st')
    /\ ports st' !! p
       = Some {| port_name := type; position := "output"; port_connection := None;
                 defaultValue := JsUndefined; port_node := n |}
    /\ node_connection <$> nodes st' !! n = Some (Some c)
    /\ let st'' := linksUpdated disconnectFrom
                     {| le_isCreated := false;
                        le_link := {| sourcePort := Some p; targetPort := Some i |} |} st' in
       calls st'' = calls st
       /\ ports st'' = ports st'
       /\ cpValue st'' c = (if ToBoolean (cpValue st c) then JsNull else cpValue st c).
Proof.
  intros Hi Hpi Hic.
  unfold addValueNode, createNodeFromObject, placeNode. simpl.
  set (p := fresh (dom (ports st))).
  assert (p ≠ i) as Hpi'.
  { intros Heq. apply (is_fresh (dom (ports st))). apply elem_of_dom.
    fold p. by rewrite Heq, Hi. }
  do 3 eexists. split; [reflexivity|]. simpl.
  rewrite lookup_insert_eq.
  split; [done|]. split.
  { by rewrite lookup_alter_eq, lookup_insert_eq. }
  unfold linksUpdated. simpl. unfold SortInputOutput. simpl.
  rewrite lookup_insert_eq, lookup_insert_ne, Hi by done. simpl.
  rewrite Hpi. simpl.
  unfold portConnection. simpl.
  rewrite lookup_insert_eq, lookup_insert_ne, Hi by done. simpl. rewrite Hic.
  unfold cpValue. simpl.
  destruct (cps st !! c) as [cx|] eqn:Hcx; simpl; [|by rewrite Hcx].
  destruct (ToBoolean (value cx)); simpl.
  - by rewrite lookup_alter_eq, Hcx.
  - by rewrite Hcx.
Qed.

End LinkRoundFacts.

(** ** Layout and construction passes *)

(** The case analysis of [placeNode], for the proofs of this part. *)
Ltac placeNode_cases options st :=
  unfold GraphEditor.placeNode;
  destruct (GraphEditor.nodeMaterialBlock options) as [?b|];
  [ destruct (GraphEditor.classify _) as [?cls ?fi];
    destruct (GraphEditor.isFinalMerger _) eqn:?;
    [ simpl; destruct (GraphEditor.nodeMaterial st) eqn:? | ]
  | ].

Section LayoutFacts.
Import GraphEditor Layout.

Variable prepare : NodeCreationOptions -> nat -> list string -> Editor -> Editor.

(** Where a successful [placeNode] leaves the stores it touches. *)
Lemma placeNode_normal (options : NodeCreationOptions) (st : Editor) n fi st1 :
  placeNode options st = (Normal (n, fi), st1) ->
  n = fresh (dom (nodes st))
  /\ (exists nd,
        nodes st1 = <[n := nd]> (nodes st)
        /\ node_x nd = 1600 - 300 * column options
        /\ node_y nd = 210 * next_row (_rowPos st) (column options))
  /\ _rowPos st1
     = <[column options := next_row (_rowPos st) (column options)]> (_rowPos st)
  /\ dm_nodes (_model st1) = dm_nodes (_model st) ++ [n].
Proof.
  placeNode_cases options st; try done.
  all: intros [= <- <- <-]; simpl; rewrite lookup_insert_eq; simpl.
  all: split_and!; try done; by eexists.
Qed.

(** X14.  [placeNode] keeps the layout of the diagram model: if every node
    of the model sits on the grid in a row that the counter of its column has
    passed, the same holds afterwards, no node of the model keeps the position
    of the new node, and the nodes that were there do not move. *)
Theorem placeNode_keeps_layout
    (options : NodeCreationOptions) (st : Editor) n fi st1 :
  layout_ok st ->
  placeNode options st = (Normal (n, fi), st1) ->
  layout_ok st1
  /\ forall n',
       n' ∈ dm_nodes (_model st) -> is_Some (nodes st !! n') ->
       positionOf st1 n' = positionOf st n'
       /\ positionOf st1 n' ≠ positionOf st1 n.
Proof.
  intros Hok Hp.
  destruct (placeNode_normal _ _ _ _ _ Hp) as (Hn & (nd & Hnodes & Hx & Hy) & Hrow & Hmodel).
  assert (nodes st !! n = None) as Hfresh.
  { apply not_elem_of_dom. rewrite Hn. apply is_fresh. }
  set (c := column options) in *.
  split.
  - intros n0 nd0 Hin Hnd0. rewrite Hmodel in Hin. rewrite Hnodes in Hnd0. rewrite Hrow.
    destruct (decide (n0 = n)) as [->|Hne].
    + rewrite lookup_insert_eq in Hnd0. injection Hnd0 as <-.
      exists c, (next_row (_rowPos st) c), (next_row (_rowPos st) c).
      rewrite lookup_insert_eq. split_and!; try done.
    + rewrite lookup_insert_ne in Hnd0 by done.
      apply elem_of_app in Hin as [Hin|Hin%list_elem_of_singleton]; [|done].
      destruct (Hok n0 nd0 Hin Hnd0) as (c0 & r0 & k0 & Hx0 & Hy0 & Hr0 & Hle).
      destruct (decide (c0 = c)) as [->|Hc].
      * exists c, (next_row (_rowPos st) c), k0. rewrite lookup_insert_eq.
        split_and!; try done. unfold next_row. rewrite Hr0. lia.
      * exists c0, r0, k0. by rewrite lookup_insert_ne.
  - intros n' Hin [nd' Hnd'].
    assert (n' ≠ n) as Hne by (intros ->; congruence).
    unfold positionOf. rewrite Hnodes, lookup_insert_eq, lookup_insert_ne, Hnd' by done.
    split; [done|]. simpl. intros [= Hxe Hye].
    destruct (Hok n' nd' Hin Hnd') as (c0 & r0 & k0 & Hx0 & Hy0 & Hr0 & Hle).
    assert (c0 = c) as -> by lia.
    unfold next_row in Hy. rewrite Hr0 in Hy. lia.
Qed.


(** The row counter of column 0 after the loop over the outputs. *)
Lemma createRoots_rows (roots : list NodeMaterialBlock) :
  (forall o n f s, column o = 0 -> _rowPos (prepare o n f s) !! 0 = _rowPos s !! 0) ->
  forall st st',
    createRoots prepare roots st = (Normal tt, st') ->
    _rowPos st' !! 0
    = match roots with
      | [] => _rowPos st !! 0
      | _ => Some (match _rowPos st !! 0 with
                   | Some r => r + Z.of_nat (length roots)
                   | None => Z.of_nat (length roots) - 1
                   end)
      end.
Proof.
  intros Hprep. induction roots as [|b roots IH]; intros st st'; simpl.
  - by intros [= <-].
  - rewrite createNodeFromObject_placeNode.
    pose proof (placeNode_rowPos
                  {| column := 0; nodeMaterialBlock := Some b; type := None;
                     connection := None |} st) as Hrow.
    destruct (placeNode _ st) as [[[n fi]|e] st1]; [|done].
    simpl in Hrow. simpl. intros Hrest.
    apply IH in Hrest. rewrite Hrest, !Hprep, Hrow, !lookup_insert_eq by done.
    unfold next_row.
    destruct roots as [|b' roots]; destruct (_rowPos st !! 0); simpl length;
      f_equal; lia.
Qed.

(** X16.  The loop of [build] over the outputs of the material stacks them in
    column 0: when [prepare], called for a node of column 0, leaves the
    counter of column 0 alone (its recursion works in the columns to the
    left), and the loop completes, the counter has advanced by one row per
    output, from row 0 when the column was empty. *)
Theorem createRoots_stacks_column_0
    (roots : list NodeMaterialBlock) (st st' : Editor) :
  (forall o n f s, column o = 0 -> _rowPos (prepare o n f s) !! 0 = _rowPos s !! 0) ->
  createRoots prepare roots st = (Normal tt, st') ->
  roots ≠ [] ->
  _rowPos st' !! 0
  = Some (match _rowPos st !! 0 with
          | Some r => r + Z.of_nat (length roots)
          | None => Z.of_nat (length roots) - 1
          end).
Proof.
  intros Hprep Hrun Hne. rewrite (createRoots_rows roots Hprep st st' Hrun).
  by destruct roots.
Qed.



End LayoutFacts.

(** ** The two grab bars *)

Section SplitterFacts.
Import Splitter.

(** X18.  A pointer move on a grab bar does nothing unless a pointer down
    started a move.  During a move it leaves the left width within 150..400
    (or the right width within 250..500), whatever the width and the pointer
    position were, does not touch the other width, stores the new width under
    its key, takes the pointer position as the start of the next step, and
    sets the grid style from the new widths. *)
Theorem resizeColumns_clamps (evt : PointerEvt) (forLeft : bool) (st : Columns) :
  let st' := resizeColumns evt forLeft st in
  if _moveInProgress st then
    _startX st' = clientX evt
    /\ _moveInProgress st' = true
    /\ gridTemplateColumns st' = buildColumnLayout st'
    /\ (if forLeft then
          150 <= _leftWidth st' <= 400
          /\ _rightWidth st' = _rightWidth st
          /\ dataStorage st' !! "LeftWidth" = Some (_leftWidth st')
          /\ dataStorage st' !! "RightWidth" = dataStorage st !! "RightWidth"
        else
          250 <= _rightWidth st' <= 500
          /\ _leftWidth st' = _leftWidth st
          /\ dataStorage st' !! "RightWidth" = Some (_rightWidth st')
          /\ dataStorage st' !! "LeftWidth" = dataStorage st !! "LeftWidth")
  else st' = st.
Proof.
  intros st'. subst st'. unfold resizeColumns.
  destruct (_moveInProgress st) eqn:Hm; simpl; [|done].
  destruct forLeft; simpl; unfold StoreNumber, clamp.
  - rewrite lookup_insert_eq, lookup_insert_ne by done. split_and!; try done; lia.
  - rewrite lookup_insert_eq, lookup_insert_ne by done. split_and!; try done; lia.
Qed.

(** X19.  The stored widths follow the columns: if the store agrees with the
    two widths, it still does after a pointer move, so that an editor opened
    on that store starts with the same two widths. *)
Theorem widths_survive_reopen (evt : PointerEvt) (forLeft : bool) (st : Columns) :
  ReadNumber "LeftWidth" 200 (dataStorage st) = _leftWidth st ->
  ReadNumber "RightWidth" 300 (dataStorage st) = _rightWidth st ->
  let st' := resizeColumns evt forLeft st in
  _leftWidth (initialColumns (dataStorage st')) = _leftWidth st'
  /\ _rightWidth (initialColumns (dataStorage st')) = _rightWidth st'.
Proof.
  intros Hl Hr st'. subst st'. unfold resizeColumns.
  destruct (_moveInProgress st); simpl; [|done].
  destruct forLeft; simpl; unfold ReadNumber, StoreNumber in *.
  - by rewrite lookup_insert_eq, lookup_insert_ne.
  - by rewrite lookup_insert_eq, lookup_insert_ne.
Qed.

(** X21.  A step that hits the limit loses the overshoot: dragging the left
    bar past the width 400 and back to where the move started leaves the
    column narrower than it was. *)
Theorem overshoot_is_lost (e1 back : PointerEvt) (st : Columns) :
  _moveInProgress st = true ->
  150 < _leftWidth st <= 400 ->
  400 < _leftWidth st + (clientX e1 - _startX st) ->
  clientX back = _startX st ->
  _leftWidth (resizeColumns e1 true st) = 400
  /\ _leftWidth (resizeColumns back true (resizeColumns e1 true st)) < _leftWidth st.
Proof.
  intros Hm Hl Hover Hback. unfold resizeColumns. rewrite Hm. simpl. rewrite ?Hm. simpl.
  unfold clamp. lia.
Qed.

(** A whole drag: pointer down, one move, pointer up. *)
Lemma drag_once (down move up : PointerEvt) (st : Columns) :
  let st' := onPointerUp up (resizeColumns move true (onPointerDown down st)) in
  _leftWidth st' = clamp 150 400 (_leftWidth st + (clientX move - clientX down))
  /\ _moveInProgress st' = false
  /\ resizeColumns move true st' = st'.
Proof. intros st'. subst st'. unfold resizeColumns. simpl. done. Qed.

End SplitterFacts.

(** ** The further properties at work *)

Section FurtherWitnesses.
Import InputHub HubEvents GraphEditor Layout Splitter Samples.

(** X4 with both Shift keys flagged: the key up of the right one (key down is
    1 here) blocks a Shift trigger, though the left flag still stands. *)
Lemma modifier_release_blocks_triggers_both_held :
  let h' := (onKeyboard 1 2 bothShiftsHub (keyEvent 2 16 2)).1 in
  modifierPrefix 16 = Some "shift"
  /\ modifierState h' "shiftLeft" = true
  /\ _checkModifier h' (kt_base (shiftKeyTrigger 65)) = false.
Proof.
  intros h'. split; [reflexivity|]. split; [vm_compute; reflexivity|].
  destruct (modifier_release_blocks_triggers 1 2 bothShiftsHub (keyEvent 2 16 2)
              "shift" (kt_base (shiftKeyTrigger 65)) eq_refl) as [_ Hblock].
  - discriminate.
  - apply Hblock. reflexivity.
Defined.

(** X6: "jump" registered with a mouse trigger and twice with the same key. *)
Lemma registered_key_raises_once_jump :
  let triggers := [MouseTrigger leftButton; KeyboardTrigger (plainKey 32);
                   KeyboardTrigger (plainKey 32)] in
  KeyboardTrigger (plainKey 32) ∈ triggers
  /\ length (filter (fun x => x = "jump")
               (onKeyboard 1 2 (addEvent "jump" triggers emptyHub) (keyEvent 1 32 0)).2)
     = 1%nat.
Proof.
  intros triggers.
  assert (KeyboardTrigger (plainKey 32) ∈ triggers) as Hin
    by (apply list_elem_of_further, list_elem_of_here).
  split; [exact Hin|].
  apply (registered_key_raises_once 1 2 emptyHub "jump" triggers (plainKey 32)
           (keyEvent 1 32 0) Hin); reflexivity.
Defined.

(** X7: "jump", "run" and "jump" again, all on the same key. *)
Lemma keyboard_revisions_agree_jump_run :
  let h := addEvent "jump" [KeyboardTrigger (plainKey 32)]
             (addEvent "run" [KeyboardTrigger (plainKey 32)]
                (addEvent "jump" [KeyboardTrigger (plainKey 32)] emptyHub)) in
  onKeyboard0 1 2 h (keyEvent 1 32 0) = ["jump"; "run"; "jump"]
  /\ (onKeyboard' 1 2 h (keyEvent 1 32 0)).2 = ["jump"; "run"].
Proof.
  intros h. split; [reflexivity|].
  destruct (keyboard_revisions_agree 1 2 h (keyEvent 1 32 0)) as (Heq & _ & _).
  - reflexivity.
  - intros e He. subst h. simpl in He.
    repeat (apply elem_of_cons in He as [-> |He]; [reflexivity|]).
    by apply not_elem_of_nil in He.
  - rewrite Heq. reflexivity.
Defined.

(** X8 on the two bound ports. *)
Lemma targetPortChanged_connects_two_bound :
  let st' := targetPortChanged no_effect build_ok link_5_3 twoBoundEditor in
  SortInputOutput twoBoundEditor (Some 5%nat) (Some 3%nat)
  = Some {| input := 3%nat; output := 5%nat |}
  /\ calls st' = [CallConnectTo 8%nat 7%nat; CallBuild true]
  /\ ports st' = ports twoBoundEditor.
Proof.
  intros st'. split; [vm_compute; reflexivity|].
  destruct (targetPortChanged_connects no_effect build_ok link_5_3 twoBoundEditor
              3%nat 5%nat 7%nat 8%nat
              {| port_name := "uv"; position := "input"; port_connection := Some 7%nat;
                 defaultValue := JsUndefined; port_node := 0%nat |}
              {| port_name := "my caption"; position := "output";
                 port_connection := Some 8%nat;
                 defaultValue := JsUndefined; port_node := 1%nat |})
    as (_ & Hp & _ & Hc); try (vm_compute; reflexivity).
  split; [exact Hc | exact Hp].
Defined.

(** X9 with the output port bound and the input port not. *)
Lemma unbound_input_is_ignored_bound_output :
  portConnection unboundInputEditor 5%nat = Some 8%nat
  /\ portConnection unboundInputEditor 3%nat = None
  /\ calls (targetPortChanged no_effect build_ok link_5_3 unboundInputEditor)
     = [CallBuild true]
  /\ linksUpdated no_effect {| le_isCreated := false; le_link := link_5_3 |}
       unboundInputEditor
     = notifySelectionCleared unboundInputEditor.
Proof.
  split; [vm_compute; reflexivity|]. split; [vm_compute; reflexivity|].
  destruct (unbound_input_is_ignored no_effect no_effect build_ok link_5_3
              unboundInputEditor {| input := 3%nat; output := 5%nat |})
    as [Ht Hl]; try (vm_compute; reflexivity).
  split; [by rewrite Ht | exact Hl].
Defined.

(** X10 on the two bound ports: one [connectTo], then one [build]. *)
Lemma resolved_link_rebuilds_once_two_bound :
  exists pre,
    calls (targetPortChanged no_effect build_ok link_5_3 twoBoundEditor)
    = pre ++ [CallBuild true]
    /\ length (logged (targetPortChanged no_effect build_ok link_5_3 twoBoundEditor))
       = 1%nat.
Proof.
  destruct (resolved_link_rebuilds_once no_effect build_ok link_5_3 twoBoundEditor
              {| input := 3%nat; output := 5%nat |})
    as (pre & _ & Hc & Hl); [vm_compute; reflexivity|].
  exists pre. split; [exact Hc | exact Hl].
Defined.

(** X11 on the two bound ports: the caption of the output port is gone. *)
Lemma connect_then_remove_loses_caption :
  let st1 := targetPortChanged no_effect build_ok link_5_3 twoBoundEditor in
  let st2 := linksUpdated no_effect {| le_isCreated := false; le_link := link_5_3 |} st1 in
  portName twoBoundEditor 5%nat = "my caption"
  /\ cps st2 = cps twoBoundEditor
  /\ portName st2 5%nat = "output".
Proof.
  intros st1 st2. split; [reflexivity|].
  destruct (connect_then_remove no_effect no_effect build_ok link_5_3 twoBoundEditor
              3%nat 5%nat 7%nat 8%nat
              {| port_name := "uv"; position := "input"; port_connection := Some 7%nat;
                 defaultValue := JsUndefined; port_node := 0%nat |}
              {| port_name := "my caption"; position := "output";
                 port_connection := Some 8%nat;
                 defaultValue := JsUndefined; port_node := 1%nat |})
    as (Hc & _ & Ho & _ & _); try (vm_compute; reflexivity).
  split; [exact Hc|]. unfold portName. fold st1 st2 in Ho. by rewrite Ho.
Defined.

(** X12 on the literal Vector3 node. *)
Lemma remove_after_adoption_Vector3 :
  let st1 := targetPortChanged no_effect build_ok link_4_3 (literalEditor JsUndefined) in
  let st2 := linksUpdated no_effect {| le_isCreated := false; le_link := link_4_3 |} st1 in
  calls st2 = calls st1 ++ [CallDisconnectFrom 7%nat 7%nat]
  /\ cps st2 = cps st1.
Proof.
  intros st1 st2.
  destruct (remove_after_adoption no_effect no_effect build_ok link_4_3
              (literalEditor JsUndefined) 3%nat 4%nat 7%nat
              {| port_name := "uv"; position := "input"; port_connection := Some 7%nat;
                 defaultValue := JsUndefined; port_node := 0%nat |}
              {| port_name := "Vector3"; position := "output"; port_connection := None;
                 defaultValue := Vector3 0 0 0; port_node := 1%nat |})
    as (Hcalls & Hcps & _); try (vm_compute; reflexivity).
  subst st2 st1. split; [exact Hcalls|]. rewrite Hcps. reflexivity.
Defined.

(** X13 for the input port [3] and its point [7], which holds a vector. *)
Lemma value_node_of_connection_uv :
  exists n p st',
    addValueNode prepare_leaf "Vector3" 1 (Some 7%nat) (boundInputEditor (Vector3 1 2 3))
    = (Normal n, st')
    /\ portConnection st' p = None
    /\ cpValue
         (linksUpdated no_effect
            {| le_isCreated := false;
               le_link := {| sourcePort := Some p; targetPort := Some 3%nat |} |} st')
         7%nat = JsNull.
Proof.
  destruct (value_node_of_connection prepare_leaf no_effect "Vector3" 1 7%nat 3%nat
              {| port_name := "uv"; position := "input"; port_connection := Some 7%nat;
                 defaultValue := JsUndefined; port_node := 0%nat |}
              (boundInputEditor (Vector3 1 2 3)))
    as (n & p & st' & Ha & Hp & _ & _ & _ & Hv); try (vm_compute; reflexivity).
  exists n, p, st'. split; [exact Ha|]. split.
  - unfold portConnection. by rewrite Hp.
  - exact Hv.
Defined.

(** The empty diagram obeys the layout. *)
Lemma layout_ok_initial (m : option NodeMaterial) : layout_ok (initialEditor m).
Proof. intros n nd Hin. by apply not_elem_of_nil in Hin. Qed.

(** X14 on the second node of a column: it does not land on the first. *)
Lemma placeNode_keeps_layout_second_node :
  let st1 := (placeNode (inputOptions 0) (initialEditor None)).2 in
  let st2 := (placeNode (inputOptions 0) st1).2 in
  layout_ok st1 /\ layout_ok st2
  /\ positionOf st2 0%nat = Some (1600, 0)
  /\ positionOf st2 0%nat ≠ positionOf st2 1%nat.
Proof.
  intros st1 st2.
  destruct (placeNode_keeps_layout (inputOptions 0) (initialEditor None) 0%nat [] st1
              (layout_ok_initial None) eq_refl) as [Hok1 _].
  destruct (placeNode_keeps_layout (inputOptions 0) st1 1%nat [] st2 Hok1 eq_refl)
    as [Hok2 Hpos].
  split; [exact Hok1|]. split; [exact Hok2|].
  destruct (Hpos 0%nat) as [Hsame Hdiff].
  - vm_compute. left.
  - eexists. vm_compute. reflexivity.
  - split; [rewrite Hsame; vm_compute; reflexivity | exact Hdiff].
Defined.



(** [prepare_with_input], called for column 0, works in column 1. *)
Lemma prepare_with_input_rowPos o n f s :
  column o = 0 -> _rowPos (prepare_with_input o n f s) !! 0 = _rowPos s !! 0.
Proof.
  intros Hc. unfold prepare_with_input, addValueNode, createNodeFromObject, placeNode.
  simpl. rewrite Hc. by rewrite lookup_insert_ne.
Qed.

(** X16 on two outputs, an empty layout and a [prepare] that makes one
    literal node per output in the next column: the counter of column 0 ends
    on row 1, and so does the counter of column 1. *)
Lemma createRoots_stacks_two_outputs :
  exists st',
    createRoots prepare_with_input [vertexOutput; fragmentOutput]
      (initialEditor (Some emptyMaterial)) = (Normal tt, st')
    /\ _rowPos st' !! 0 = Some 1
    /\ _rowPos st' !! 1 = Some 1
    /\ dm_nodes (_model st') = [0%nat; 1%nat; 2%nat; 3%nat].
Proof.
  eexists. split; [vm_compute; reflexivity|]. split.
  - rewrite (createRoots_stacks_column_0 prepare_with_input [vertexOutput; fragmentOutput]
               (initialEditor (Some emptyMaterial)) _ prepare_with_input_rowPos);
      [reflexivity | vm_compute; reflexivity | discriminate].
  - vm_compute. done.
Defined.


(** X19 and X21 on a move that starts at x = 10 with the left column at 200. *)
Lemma widths_survive_reopen_after_move :
  let st' := resizeColumns (pointerAt 60) true grabbed in
  _leftWidth st' = 250
  /\ _leftWidth (initialColumns (dataStorage st')) = 250
  /\ _rightWidth (initialColumns (dataStorage st')) = 300.
Proof.
  intros st'. split; [reflexivity|].
  destruct (widths_survive_reopen (pointerAt 60) true grabbed eq_refl eq_refl) as [Hl Hr].
  split; [exact Hl | exact Hr].
Defined.

Lemma overshoot_is_lost_past_400 :
  _leftWidth grabbed = 200
  /\ _leftWidth (resizeColumns (pointerAt 300) true grabbed) = 400
  /\ _leftWidth (resizeColumns (pointerAt 10) true
                   (resizeColumns (pointerAt 300) true grabbed)) < 200.
Proof.
  split; [reflexivity|].
  apply (overshoot_is_lost (pointerAt 300) (pointerAt 10) grabbed eq_refl);
    [vm_compute; split; [reflexivity | discriminate] | vm_compute; reflexivity
    | reflexivity].
Defined.

End FurtherWitnesses.
